(** * GoldWatch: the monitoring dashboard of [App.tsx] and its services

    A shallow embedding of the React component [App] (src/App.tsx), of
    [fetchLiveGoldPrice] and [sendTelegramAlert] (the two service files) and of
    [getMarketInsight] (src/services/geminiService.ts).

    The component is modelled as a transition system.  One transition is one
    browser task: a user event, a firing of the polling timer, or the
    settlement of a promise an [async] function is suspended on.  An [async]
    function is therefore split at its [await]: the part before it runs in the
    task that calls the function, the part after it in the task that settles
    the promise, and anything may happen in between. *)

From Stdlib Require Import ZArith QArith Qround List Sorted String Ascii DecimalString Lia.
From stdpp Require Import base option list gmap strings.

Local Open Scope Z_scope.

(** ** JavaScript values *)

(** A JavaScript [number].  A finite double is read as the rational it
    denotes, so the comparisons below are exact.  The zero of [Q] stands for
    both [0] and [-0], which no comparison of the program tells apart. *)
Inductive number : Type :=
  | Finite (q : Q)
  | NaN
  | PosInfinity
  | NegInfinity.

(** The order on numbers; [None] when an operand is [NaN]. *)
Definition number_compare (a b : number) : option comparison :=
  match a, b with
  | NaN, _ | _, NaN => None
  | Finite p, Finite q => Some (p ?= q)%Q
  | PosInfinity, PosInfinity | NegInfinity, NegInfinity => Some Eq
  | PosInfinity, _ | _, NegInfinity => Some Gt
  | NegInfinity, _ | _, PosInfinity => Some Lt
  end.

(** [a > b] *)
Definition js_gt (a b : number) : bool :=
  match number_compare a b with Some Gt => true | _ => false end.

(** [a >= b] *)
Definition js_ge (a b : number) : bool :=
  match number_compare a b with Some Gt | Some Eq => true | _ => false end.

(** [a === b] *)
Definition js_strict_eq (a b : number) : bool :=
  match number_compare a b with Some Eq => true | _ => false end.

(** [Object.is(a, b)], by which React compares a state with its new value and
    the dependencies of an effect with their previous values. *)
Definition Object_is (a b : number) : bool :=
  match a, b with
  | NaN, NaN => true
  | _, _ => js_strict_eq a b
  end.

Definition of_Z (z : Z) : number := Finite (inject_Z z).

(** [Math.round]: the nearest integer, a tie going up. *)
Definition Math_round (x : number) : number :=
  match x with
  | Finite q => Finite (inject_Z (Qfloor (q + (1 # 2))))
  | other => other
  end.

(** [x / d] for a finite [d > 0], the quotient taken exactly. *)
Definition js_div_pos (x : number) (d : Q) : number :=
  match x with
  | Finite q => Finite (q / d)
  | other => other
  end.

(** What an [async] call or a throwing expression ends in. *)
Inductive Outcome (A : Type) : Type :=
  | Returned (a : A)
  | Thrown (message : string).
Arguments Returned {A} a.
Arguments Thrown {A} message.

(** [Array.prototype.slice(start, end)]; [stop = None] is the call with one
    argument.  A negative index counts from the end. *)
Definition Array_slice {A : Type} (start : Z) (stop : option Z) (l : list A) : list A :=
  let len := Z.of_nat (length l) in
  let relative (k : Z) := if k <? 0 then Z.max (len + k) 0 else Z.min k len in
  let from := relative start in
  let final := match stop with Some e => relative e | None => len end in
  firstn (Z.to_nat (final - from)) (skipn (Z.to_nat from) l).

(** [Number.prototype.toString] of an integer, as [Date.now().toString()]. *)
Definition Z_toString (z : Z) : string := NilZero.string_of_int (Z.to_int z).

(** ** The data model (types.ts) *)

Module PricePoint.
Record t : Type := mk { time : string; price : number }.
End PricePoint.

Module TelegramConfig.
Record t : Type := mk { botToken : string; chatId : string; enabled : bool }.
End TelegramConfig.

Inductive Sentiment : Type := Bullish | Bearish | Neutral.

Module MarketInsight.
Record t : Type := mk { sentiment : Sentiment; analysis : string; recommendation : string }.
End MarketInsight.

Inductive LogStatus : Type := success | failed.

Module NotificationLog.
Record t : Type := mk { id : string; timestamp : string; message : string; status : LogStatus }.
End NotificationLog.

Module GoldData.
Record t : Type := mk { pricePerGram : number; timestamp : Z; source : string }.
End GoldData.

(** ** The browser

    What the program calls and the repository does not define.  The locale
    dependent renderings and the JSON codec are left to the browser at hand;
    the theorems hold for every one. *)
Record Browser : Type := {
  (** [n.toLocaleString()] *)
  Number_toLocaleString : number -> string;
  (** [n.toLocaleString('id-ID')] *)
  Number_toLocaleString_id : number -> string;
  (** [new Date(ms).toLocaleString()] *)
  Date_toLocaleString : Z -> string;
  (** [new Date(ms).toLocaleTimeString([], { hour: '2-digit', minute: '2-digit' })] *)
  Date_toLocaleTimeString : Z -> string;
  (** [s.trim()] *)
  String_trim : string -> string;
  (** [JSON.stringify] of a Telegram configuration *)
  JSON_stringify : TelegramConfig.t -> string;
  (** [JSON.parse] where a Telegram configuration is expected *)
  JSON_parse : string -> Outcome TelegramConfig.t;
  (** [JSON.parse] where a market insight is expected *)
  JSON_parse_insight : string -> Outcome MarketInsight.t
}.

(** ** goldService.ts *)

Definition TROY_OUNCE_TO_GRAM : Q := 311034768 # 10000000.

(** The body of the response of the price feed, as far as
    [fetchLiveGoldPrice] looks into it. *)
Inductive FeedBody : Type :=
  | BodyNotJson (message : string)      (* [response.json()] rejects *)
  | BodyWithoutXau (message : string)   (* [data.xau] is undefined: [data.xau.idr] throws *)
  | BodyXau (idr : option number).      (* [data.xau.idr], [None] for undefined *)

(** What [fetch] of the price feed ends in. *)
Inductive FeedResponse : Type :=
  | FeedUnreachable (message : string)
  | FeedResponds (ok : bool) (body : FeedBody).

(** [fetchLiveGoldPrice]; [now] is the clock read by [Date.now()]. *)
Definition fetchLiveGoldPrice (net : FeedResponse) (now : Z) : Outcome GoldData.t :=
  match net with
  | FeedUnreachable msg => Thrown msg
  | FeedResponds false _ => Thrown "Failed to fetch from primary source"
  | FeedResponds true (BodyNotJson msg) => Thrown msg
  | FeedResponds true (BodyWithoutXau msg) => Thrown msg
  | FeedResponds true (BodyXau idr) =>
      let xauToIdr := match idr with Some v => v | None => NaN end in
      let pricePerGram := Math_round (js_div_pos xauToIdr TROY_OUNCE_TO_GRAM) in
      Returned (GoldData.mk pricePerGram now "Global Market (XAU/IDR)")
  end.

(** ** telegramService.ts *)

(** What [fetch] of the Telegram endpoint ends in. *)
Inductive TelegramResponse : Type :=
  | TelegramUnreachable
  | TelegramResponds (ok : bool).

(** Truthiness of a string: it is not empty. *)
Definition truthy (s : string) : bool :=
  match s with EmptyString => false | String _ _ => true end.

(** [sendTelegramAlert] up to its [await]: [Some false] when the guard returns
    at once, [None] when the request is made and the call is suspended. *)
Definition sendTelegramAlert_call (config : TelegramConfig.t) : option bool :=
  if negb (truthy (TelegramConfig.botToken config))
     || negb (truthy (TelegramConfig.chatId config))
     || negb (TelegramConfig.enabled config)
  then Some false
  else None.

(** [sendTelegramAlert] after its [await]: [response.ok], and [false] from the
    [catch] when [fetch] throws. *)
Definition sendTelegramAlert_resume (net : TelegramResponse) : bool :=
  match net with
  | TelegramResponds ok => ok
  | TelegramUnreachable => false
  end.

Definition sendTelegramAlert (config : TelegramConfig.t) (net : TelegramResponse) : bool :=
  match sendTelegramAlert_call config with
  | Some result => result
  | None => sendTelegramAlert_resume net
  end.

(** ** geminiService.ts *)

(** The client [new GoogleGenAI(...)] builds, when it builds one: its
    [models.generateContent], from the prompt to [response.text] ([None] for
    undefined), or to what the call throws. *)
Definition GoogleGenAI : Type := Outcome (string -> Outcome (option string)).

Definition insight_prompt (B : Browser) (currentPrice : number) : string :=
  "Analyze current gold price of IDR " +:+ Number_toLocaleString_id B currentPrice +:+ " per gram. 
  Provide a market sentiment (Bullish, Bearish, or Neutral), a short analysis of factors that might influence gold prices today, 
  and a simple recommendation for an investor. Return the response in JSON format.".

(** The value of the [catch] branch of [getMarketInsight]. *)
Definition fallback_insight : MarketInsight.t :=
  MarketInsight.mk Neutral
    "Could not fetch AI analysis at this time."
    "Monitor global economic indicators.".

(** [response.text?.trim() || '{}'] *)
Definition insight_jsonStr (B : Browser) (text : option string) : string :=
  match text with
  | Some t => if truthy (String_trim B t) then String_trim B t else "{}"
  | None => "{}"
  end.

(** [getMarketInsight].  The client is built before the [try]; the call of the
    model and [JSON.parse] are inside it. *)
Definition getMarketInsight (B : Browser) (ai : GoogleGenAI) (currentPrice : number)
  : Outcome MarketInsight.t :=
  match ai with
  | Thrown msg => Thrown msg
  | Returned generateContent =>
      let prompt := insight_prompt B currentPrice in
      match generateContent prompt with
      | Thrown _ => Returned fallback_insight
      | Returned text =>
          match JSON_parse_insight B (insight_jsonStr B text) with
          | Returned parsed => Returned parsed
          | Thrown _ => Returned fallback_insight
          end
      end
  end.

(** ** App.tsx: the state of the component *)

Definition INITIAL_THRESHOLD : number := of_Z 2900000.

Module Tab.
Inductive t : Type := dashboard | settings | logs.
End Tab.

(** The [useState] cells of [App] and its one [useRef] cell.  A [Date] is the
    number of milliseconds it holds. *)
Record AppState : Type := mkAppState {
  currentPrice : number;
  lastUpdated : option Z;
  dataSource : string;
  threshold : number;
  priceHistory : list PricePoint.t;
  isMonitoring : bool;
  insight : option MarketInsight.t;
  loadingInsight : bool;
  loadingPrice : bool;
  logs : list NotificationLog.t;
  activeTab : Tab.t;
  tgConfig : TelegramConfig.t;
  lastAlertTimeRef : Z
}.

Definition setCurrentPrice (v : number) (s : AppState) : AppState :=
  mkAppState v (lastUpdated s) (dataSource s) (threshold s) (priceHistory s)
    (isMonitoring s) (insight s) (loadingInsight s) (loadingPrice s) (logs s)
    (activeTab s) (tgConfig s) (lastAlertTimeRef s).

Definition setLastUpdated (v : option Z) (s : AppState) : AppState :=
  mkAppState (currentPrice s) v (dataSource s) (threshold s) (priceHistory s)
    (isMonitoring s) (insight s) (loadingInsight s) (loadingPrice s) (logs s)
    (activeTab s) (tgConfig s) (lastAlertTimeRef s).

Definition setDataSource (v : string) (s : AppState) : AppState :=
  mkAppState (currentPrice s) (lastUpdated s) v (threshold s) (priceHistory s)
    (isMonitoring s) (insight s) (loadingInsight s) (loadingPrice s) (logs s)
    (activeTab s) (tgConfig s) (lastAlertTimeRef s).

Definition setThreshold (v : number) (s : AppState) : AppState :=
  mkAppState (currentPrice s) (lastUpdated s) (dataSource s) v (priceHistory s)
    (isMonitoring s) (insight s) (loadingInsight s) (loadingPrice s) (logs s)
    (activeTab s) (tgConfig s) (lastAlertTimeRef s).

(** [setPriceHistory] and [setLogs] are called with an updater function. *)
Definition setPriceHistory (f : list PricePoint.t -> list PricePoint.t) (s : AppState)
  : AppState :=
  mkAppState (currentPrice s) (lastUpdated s) (dataSource s) (threshold s)
    (f (priceHistory s)) (isMonitoring s) (insight s) (loadingInsight s)
    (loadingPrice s) (logs s) (activeTab s) (tgConfig s) (lastAlertTimeRef s).

Definition setIsMonitoring (v : bool) (s : AppState) : AppState :=
  mkAppState (currentPrice s) (lastUpdated s) (dataSource s) (threshold s)
    (priceHistory s) v (insight s) (loadingInsight s) (loadingPrice s) (logs s)
    (activeTab s) (tgConfig s) (lastAlertTimeRef s).

Definition setInsight (v : option MarketInsight.t) (s : AppState) : AppState :=
  mkAppState (currentPrice s) (lastUpdated s) (dataSource s) (threshold s)
    (priceHistory s) (isMonitoring s) v (loadingInsight s) (loadingPrice s) (logs s)
    (activeTab s) (tgConfig s) (lastAlertTimeRef s).

Definition setLoadingInsight (v : bool) (s : AppState) : AppState :=
  mkAppState (currentPrice s) (lastUpdated s) (dataSource s) (threshold s)
    (priceHistory s) (isMonitoring s) (insight s) v (loadingPrice s) (logs s)
    (activeTab s) (tgConfig s) (lastAlertTimeRef s).

Definition setLoadingPrice (v : bool) (s : AppState) : AppState :=
  mkAppState (currentPrice s) (lastUpdated s) (dataSource s) (threshold s)
    (priceHistory s) (isMonitoring s) (insight s) (loadingInsight s) v (logs s)
    (activeTab s) (tgConfig s) (lastAlertTimeRef s).

Definition setLogs (f : list NotificationLog.t -> list NotificationLog.t) (s : AppState)
  : AppState :=
  mkAppState (currentPrice s) (lastUpdated s) (dataSource s) (threshold s)
    (priceHistory s) (isMonitoring s) (insight s) (loadingInsight s) (loadingPrice s)
    (f (logs s)) (activeTab s) (tgConfig s) (lastAlertTimeRef s).

Definition setActiveTab (v : Tab.t) (s : AppState) : AppState :=
  mkAppState (currentPrice s) (lastUpdated s) (dataSource s) (threshold s)
    (priceHistory s) (isMonitoring s) (insight s) (loadingInsight s) (loadingPrice s)
    (logs s) v (tgConfig s) (lastAlertTimeRef s).

Definition setTgConfig (v : TelegramConfig.t) (s : AppState) : AppState :=
  mkAppState (currentPrice s) (lastUpdated s) (dataSource s) (threshold s)
    (priceHistory s) (isMonitoring s) (insight s) (loadingInsight s) (loadingPrice s)
    (logs s) (activeTab s) v (lastAlertTimeRef s).

(** [lastAlertTimeRef.current = v] *)
Definition set_lastAlertTimeRef (v : Z) (s : AppState) : AppState :=
  mkAppState (currentPrice s) (lastUpdated s) (dataSource s) (threshold s)
    (priceHistory s) (isMonitoring s) (insight s) (loadingInsight s) (loadingPrice s)
    (logs s) (activeTab s) (tgConfig s) v.

(** The object the initializer of [tgConfig] falls back to. *)
Definition default_tgConfig : TelegramConfig.t := TelegramConfig.mk "" "" false.

(** The state of the first render, given the configuration read from storage. *)
Definition initial_state (config : TelegramConfig.t) : AppState :=
  mkAppState (of_Z 0) None "Initializing..." INITIAL_THRESHOLD [] false None false
    false [] Tab.dashboard config 0.

(** ** App.tsx: the functions of the component *)

(** The point [fetchPrice] appends for [data]. *)
Definition newPoint (B : Browser) (data : GoldData.t) : PricePoint.t :=
  PricePoint.mk (Date_toLocaleTimeString B (GoldData.timestamp data))
    (GoldData.pricePerGram data).

(** [fetchPrice] up to [await fetchLiveGoldPrice()]. *)
Definition fetchPrice_call (s : AppState) : AppState := setLoadingPrice true s.

(** [fetchPrice] from the settlement of [fetchLiveGoldPrice()] on: the body of
    the [try] or the [catch], and the [finally]. *)
Definition fetchPrice_resume (B : Browser) (fetched : Outcome GoldData.t) (s : AppState)
  : AppState :=
  let s' :=
    match fetched with
    | Returned data =>
        let s1 := setCurrentPrice (GoldData.pricePerGram data) s in
        let s2 := setLastUpdated (Some (GoldData.timestamp data)) s1 in
        let s3 := setDataSource (GoldData.source data) s2 in
        setPriceHistory
          (fun history =>
             let updated := history ++ [newPoint B data] in
             Array_slice (-30) None updated)
          s3
    | Thrown _ => s
    end in
  setLoadingPrice false s'.

(** A call of [checkThreshold] suspended at [await sendTelegramAlert(...)]:
    the values its closure holds. *)
Record PendingAlert : Type := mkPendingAlert {
  alert_tgConfig : TelegramConfig.t;
  alert_currentPrice : number;
  alert_threshold : number;
  alert_now : Z
}.

(** [checkThreshold] up to its [await]: [Some] when [sendTelegramAlert] is
    called, with the arguments of the call and the clock read before it. *)
Definition checkThreshold_call (now : Z) (s : AppState) : option PendingAlert :=
  if isMonitoring s && js_gt (currentPrice s) (of_Z 0)
     && js_ge (currentPrice s) (threshold s)
  then
    if now - lastAlertTimeRef s >? 600000
    then Some (mkPendingAlert (tgConfig s) (currentPrice s) (threshold s) now)
    else None
  else None.

(** The entry [checkThreshold] logs; [clock] is read when the entry is built. *)
Definition alert_log (B : Browser) (clock : Z) (p : PendingAlert) (ok : bool)
  : NotificationLog.t :=
  NotificationLog.mk
    (Z_toString clock)
    (Date_toLocaleString B clock)
    ("Price threshold IDR " +:+ Number_toLocaleString B (alert_threshold p)
       +:+ " triggered at IDR " +:+ Number_toLocaleString B (alert_currentPrice p))
    (if ok then success else failed).

(** [checkThreshold] after its [await]; [ok] is what [sendTelegramAlert]
    returned. *)
Definition checkThreshold_resume (B : Browser) (clock : Z) (p : PendingAlert) (ok : bool)
    (s : AppState) : AppState :=
  let s1 :=
    setLogs (fun prev => Array_slice 0 (Some 50) (alert_log B clock p ok :: prev)) s in
  if ok then set_lastAlertTimeRef (alert_now p) s1 else s1.

(** [handleFetchInsight] up to its [await]: [None] when it returns at once,
    and otherwise the state and the argument of [getMarketInsight]. *)
Definition handleFetchInsight_call (s : AppState) : option (AppState * number) :=
  if js_strict_eq (currentPrice s) (of_Z 0) then None
  else Some (setLoadingInsight true s, currentPrice s).

(** [handleFetchInsight] after its [await].  When [getMarketInsight] rejects,
    so does the handler, and nothing is set. *)
Definition handleFetchInsight_resume (result : Outcome MarketInsight.t) (s : AppState)
  : AppState :=
  match result with
  | Returned r => setLoadingInsight false (setInsight (Some r) s)
  | Thrown _ => s
  end.

(** ** The page: the component in its browser *)

(** The only function the program hands to a timer. *)
Inductive TimerCallback : Type := CallFetchPrice.

(** An interval timer of the window, as [setInterval] registered it. *)
Record Interval : Type := mkInterval {
  handle : nat;
  callback : TimerCallback;
  delay : Z
}.

(** The component, the parts of the browser it acts on, the [async] calls
    suspended at their [await], and a record of the calls made so far.  The
    last three fields are ghost: the program does not hold them. *)
Record World : Type := mkWorld {
  app : AppState;
  localStorage : gmap string string;
  intervals : list Interval;        (* the active interval timers *)
  nextHandle : nat;                 (* the handle [setInterval] returns next *)
  interval : option nat;            (* [let interval], as the last cleanup sees it *)
  pricesInFlight : nat;             (* calls of [fetchPrice] at their [await] *)
  alertsInFlight : list PendingAlert;   (* calls of [checkThreshold] at their [await] *)
  insightsInFlight : list number;   (* calls of [handleFetchInsight] at their [await] *)
  alertsAttempted : list PendingAlert;          (* calls of [sendTelegramAlert], latest first *)
  alertsSettled : list (PendingAlert * bool);   (* and what they returned, latest first *)
  insightsRequested : list number   (* calls of [getMarketInsight], latest first *)
}.

Definition with_app (f : AppState -> AppState) (w : World) : World :=
  mkWorld (f (app w)) (localStorage w) (intervals w) (nextHandle w) (interval w)
    (pricesInFlight w) (alertsInFlight w) (insightsInFlight w) (alertsAttempted w)
    (alertsSettled w) (insightsRequested w).

Definition with_localStorage (v : gmap string string) (w : World) : World :=
  mkWorld (app w) v (intervals w) (nextHandle w) (interval w)
    (pricesInFlight w) (alertsInFlight w) (insightsInFlight w) (alertsAttempted w)
    (alertsSettled w) (insightsRequested w).

Definition with_timers (ts : list Interval) (next : nat) (w : World) : World :=
  mkWorld (app w) (localStorage w) ts next (interval w)
    (pricesInFlight w) (alertsInFlight w) (insightsInFlight w) (alertsAttempted w)
    (alertsSettled w) (insightsRequested w).

Definition with_interval (v : option nat) (w : World) : World :=
  mkWorld (app w) (localStorage w) (intervals w) (nextHandle w) v
    (pricesInFlight w) (alertsInFlight w) (insightsInFlight w) (alertsAttempted w)
    (alertsSettled w) (insightsRequested w).

Definition with_pricesInFlight (v : nat) (w : World) : World :=
  mkWorld (app w) (localStorage w) (intervals w) (nextHandle w) (interval w)
    v (alertsInFlight w) (insightsInFlight w) (alertsAttempted w)
    (alertsSettled w) (insightsRequested w).

Definition with_alertsInFlight (v : list PendingAlert) (w : World) : World :=
  mkWorld (app w) (localStorage w) (intervals w) (nextHandle w) (interval w)
    (pricesInFlight w) v (insightsInFlight w) (alertsAttempted w)
    (alertsSettled w) (insightsRequested w).

Definition with_insightsInFlight (v : list number) (w : World) : World :=
  mkWorld (app w) (localStorage w) (intervals w) (nextHandle w) (interval w)
    (pricesInFlight w) (alertsInFlight w) v (alertsAttempted w)
    (alertsSettled w) (insightsRequested w).

Definition note_alertAttempted (p : PendingAlert) (w : World) : World :=
  mkWorld (app w) (localStorage w) (intervals w) (nextHandle w) (interval w)
    (pricesInFlight w) (alertsInFlight w) (insightsInFlight w) (p :: alertsAttempted w)
    (alertsSettled w) (insightsRequested w).

Definition note_alertSettled (p : PendingAlert) (ok : bool) (w : World) : World :=
  mkWorld (app w) (localStorage w) (intervals w) (nextHandle w) (interval w)
    (pricesInFlight w) (alertsInFlight w) (insightsInFlight w) (alertsAttempted w)
    ((p, ok) :: alertsSettled w) (insightsRequested w).

Definition note_insightRequested (price : number) (w : World) : World :=
  mkWorld (app w) (localStorage w) (intervals w) (nextHandle w) (interval w)
    (pricesInFlight w) (alertsInFlight w) (insightsInFlight w) (alertsAttempted w)
    (alertsSettled w) (price :: insightsRequested w).

(** [setInterval(f, ms)]: the new timer's handle and the page with the timer. *)
Definition setInterval (f : TimerCallback) (ms : Z) (w : World) : nat * World :=
  let h := nextHandle w in
  (h, with_timers (intervals w ++ [mkInterval h f ms]) (S h) w).

(** [clearInterval(h)]; [None] is [undefined], which clears nothing. *)
Definition clearInterval (h : option nat) (w : World) : World :=
  match h with
  | Some h =>
      with_timers (List.filter (fun t => negb (Nat.eqb (handle t) h)) (intervals w))
        (nextHandle w) w
  | None => w
  end.

(** A call of [fetchPrice]: it runs up to its [await] and is suspended there. *)
Definition call_fetchPrice (w : World) : World :=
  with_pricesInFlight (S (pricesInFlight w)) (with_app fetchPrice_call w).

(** *** The three effects of the component *)

Definition STORAGE_KEY : string := "gold_tg_config".

(** Persistence: [localStorage.setItem('gold_tg_config', JSON.stringify(tgConfig))]. *)
Definition persistence_effect (B : Browser) (w : World) : World :=
  with_localStorage
    (<[STORAGE_KEY := JSON_stringify B (tgConfig (app w))]> (localStorage w)) w.

(** Monitoring loop: the body of the effect. *)
Definition monitoring_effect (w : World) : World :=
  if isMonitoring (app w) then
    let w1 := call_fetchPrice w in
    let '(h, w2) := setInterval CallFetchPrice 60000 w1 in
    with_interval (Some h) w2
  else with_interval None w.

(** Monitoring loop: the cleanup the effect returned, [() => clearInterval(interval)]. *)
Definition monitoring_cleanup (w : World) : World := clearInterval (interval w) w.

(** The settlement of [sendTelegramAlert] for the suspended [checkThreshold] [p]. *)
Definition settle_alert (B : Browser) (now : Z) (p : PendingAlert) (ok : bool) (w : World)
  : World :=
  with_app (checkThreshold_resume B now p ok) (note_alertSettled p ok w).

(** Alert check: the effect calls [checkThreshold].  When [sendTelegramAlert]
    returns at its guard, [checkThreshold] resumes before any other task. *)
Definition alert_effect (B : Browser) (now : Z) (w : World) : World :=
  match checkThreshold_call now (app w) with
  | None => w
  | Some p =>
      let w1 := note_alertAttempted p w in
      match sendTelegramAlert_call (alert_tgConfig p) with
      | Some ok => settle_alert B now p ok w1
      | None => with_alertsInFlight (alertsInFlight w1 ++ [p]) w1
      end
  end.

(** The effects React runs after a render: those with a dependency that
    changed since the state [old] of the render before.  [configSet] says that
    [setTgConfig] was called, always with a fresh object. *)
Definition run_effects (B : Browser) (now : Z) (old : AppState) (configSet : bool)
    (w : World) : World :=
  let monitoringChanged := negb (Bool.eqb (isMonitoring old) (isMonitoring (app w))) in
  let alertDepsChanged :=
    negb (Object_is (currentPrice old) (currentPrice (app w)))
    || negb (Object_is (threshold old) (threshold (app w)))
    || monitoringChanged || configSet in
  let w1 := if configSet then persistence_effect B w else w in
  let w2 := if monitoringChanged then monitoring_effect (monitoring_cleanup w1) else w1 in
  if alertDepsChanged then alert_effect B now w2 else w2.

(** The initializer of [tgConfig]: [saved ? JSON.parse(saved) : {...}]. *)
Definition initial_tgConfig (B : Browser) (storage : gmap string string)
  : Outcome TelegramConfig.t :=
  match storage !! STORAGE_KEY with
  | Some saved => if truthy saved then JSON_parse B saved else Returned default_tgConfig
  | None => Returned default_tgConfig
  end.

(** Loading the page over the given storage: the first render and its
    effects.  The page does not come up when the initializer throws. *)
Definition mount (B : Browser) (now : Z) (storage : gmap string string) : Outcome World :=
  match initial_tgConfig B storage with
  | Thrown msg => Thrown msg
  | Returned config =>
      let w := mkWorld (initial_state config) storage [] 1%nat None 0%nat [] [] [] [] [] in
      Returned (alert_effect B now (monitoring_effect (persistence_effect B w)))
  end.

(** *** Tasks *)

Inductive Event : Type :=
  | ClickMonitoring                     (* the Start/Stop button *)
  | ChangeThreshold (v : number)        (* the threshold input *)
  | ChangeBotToken (v : string)
  | ChangeChatId (v : string)
  | ClickEnabled
  | ClickTab (tab : Tab.t)
  | ClickInsight                        (* the AI Insights button *)
  | IntervalFires (h : nat)
  | PriceSettles (net : FeedResponse)   (* a suspended [fetchPrice] resumes *)
  | AlertSettles (i : nat) (net : TelegramResponse)   (* the [i]th suspended [checkThreshold] *)
  | InsightSettles (i : nat) (ai : GoogleGenAI).      (* the [i]th suspended [handleFetchInsight] *)

(** The click on the AI Insights button reaches [handleFetchInsight]. *)
Definition click_insight (w : World) : World :=
  match handleFetchInsight_call (app w) with
  | None => w
  | Some (s, price) =>
      note_insightRequested price
        (with_insightsInFlight (insightsInFlight w ++ [price]) (with_app (fun _ => s) w))
  end.

(** One task, run at clock [now].  An event that cannot occur in [w] (a timer
    that is not active, a settlement nothing waits for, a click on the
    disabled button) leaves [w] as it is. *)
Definition step (B : Browser) (now : Z) (e : Event) (w : World) : World :=
  let old := app w in
  let config := tgConfig old in
  match e with
  | ClickMonitoring =>
      run_effects B now old false (with_app (setIsMonitoring (negb (isMonitoring old))) w)
  | ChangeThreshold v =>
      run_effects B now old false (with_app (setThreshold v) w)
  | ChangeBotToken v =>
      run_effects B now old true
        (with_app (setTgConfig (TelegramConfig.mk v (TelegramConfig.chatId config)
                                  (TelegramConfig.enabled config))) w)
  | ChangeChatId v =>
      run_effects B now old true
        (with_app (setTgConfig (TelegramConfig.mk (TelegramConfig.botToken config) v
                                  (TelegramConfig.enabled config))) w)
  | ClickEnabled =>
      run_effects B now old true
        (with_app (setTgConfig (TelegramConfig.mk (TelegramConfig.botToken config)
                                  (TelegramConfig.chatId config)
                                  (negb (TelegramConfig.enabled config)))) w)
  | ClickTab tab => with_app (setActiveTab tab) w
  | ClickInsight =>
      if loadingInsight old || js_strict_eq (currentPrice old) (of_Z 0) then w
      else click_insight w
  | IntervalFires h =>
      if existsb (fun t => Nat.eqb (handle t) h) (intervals w) then call_fetchPrice w
      else w
  | PriceSettles net =>
      match pricesInFlight w with
      | O => w
      | S n =>
          run_effects B now old false
            (with_app (fetchPrice_resume B (fetchLiveGoldPrice net now))
               (with_pricesInFlight n w))
      end
  | AlertSettles i net =>
      match alertsInFlight w !! i with
      | None => w
      | Some p =>
          settle_alert B now p (sendTelegramAlert (alert_tgConfig p) net)
            (with_alertsInFlight (delete i (alertsInFlight w)) w)
      end
  | InsightSettles i ai =>
      match insightsInFlight w !! i with
      | None => w
      | Some price =>
          with_app (handleFetchInsight_resume (getMarketInsight B ai price))
            (with_insightsInFlight (delete i (insightsInFlight w)) w)
      end
  end.

(** A run: the tasks in order, each with the clock it reads. *)
Definition run (B : Browser) (tasks : list (Z * Event)) (w : World) : World :=
  fold_left (fun w '(now, e) => step B now e w) tasks w.

(** ** What the properties speak of *)

(** What one run of the alert check does to the page: nothing; or a call of
    [sendTelegramAlert] that is suspended; or one that returns at its guard,
    and then the log entry at once. *)
Inductive alert_check (B : Browser) (now : Z) (w w' : World) : Prop :=
  | check_skips :
      alertsAttempted w' = alertsAttempted w ->
      alertsSettled w' = alertsSettled w ->
      alertsInFlight w' = alertsInFlight w ->
      logs (app w') = logs (app w) ->
      lastAlertTimeRef (app w') = lastAlertTimeRef (app w) ->
      alert_check B now w w'
  | check_sends (p : PendingAlert) :
      checkThreshold_call now (app w) = Some p ->
      sendTelegramAlert_call (alert_tgConfig p) = None ->
      alertsAttempted w' = p :: alertsAttempted w ->
      alertsSettled w' = alertsSettled w ->
      alertsInFlight w' = alertsInFlight w ++ [p] ->
      logs (app w') = logs (app w) ->
      lastAlertTimeRef (app w') = lastAlertTimeRef (app w) ->
      alert_check B now w w'
  | check_fails_at_once (p : PendingAlert) :
      checkThreshold_call now (app w) = Some p ->
      sendTelegramAlert_call (alert_tgConfig p) = Some false ->
      alertsAttempted w' = p :: alertsAttempted w ->
      alertsSettled w' = (p, false) :: alertsSettled w ->
      alertsInFlight w' = alertsInFlight w ->
      logs (app w') = Array_slice 0 (Some 50) (alert_log B now p false :: logs (app w)) ->
      lastAlertTimeRef (app w') = lastAlertTimeRef (app w) ->
      alert_check B now w w'.

(** A task made no call of [sendTelegramAlert], or one call: past the guard
    on the monitoring flag, the price and the threshold of the state the task
    leaves, with that price and threshold, and more than 600000 ms past the
    debounce cell; the call is then suspended, or has returned [false] at its
    guard. *)
Definition attempt_guarded (now : Z) (w w' : World) : Prop :=
  alertsAttempted w' = alertsAttempted w
  \/ exists p,
      alertsAttempted w' = p :: alertsAttempted w
      /\ isMonitoring (app w') = true
      /\ js_gt (currentPrice (app w')) (of_Z 0) = true
      /\ js_ge (currentPrice (app w')) (threshold (app w')) = true
      /\ alert_currentPrice p = currentPrice (app w')
      /\ alert_threshold p = threshold (app w')
      /\ alert_now p = now
      /\ now - lastAlertTimeRef (app w) > 600000
      /\ (alertsInFlight w' = alertsInFlight w ++ [p]
          \/ alertsSettled w' = (p, false) :: alertsSettled w).

(** A task settled no call of [sendTelegramAlert] and left the logs alone, or
    it settled one call and put its entry in front of the logs. *)
Definition settlement_logged (B : Browser) (now : Z) (w w' : World) : Prop :=
  (alertsSettled w' = alertsSettled w /\ logs (app w') = logs (app w))
  \/ exists p net,
      let ok := sendTelegramAlert (alert_tgConfig p) net in
      let entry := alert_log B now p ok in
      alertsSettled w' = (p, ok) :: alertsSettled w
      /\ logs (app w') = Array_slice 0 (Some 50) (entry :: logs (app w))
      /\ head (logs (app w')) = Some entry.

(** While the page monitors there is one timer: it calls [fetchPrice] every
    60000 ms and the cleanup of the effect holds its handle.  While it does
    not, there is none. *)
Definition timer_invariant (w : World) : Prop :=
  if isMonitoring (app w)
  then exists h, intervals w = [mkInterval h CallFetchPrice 60000] /\ interval w = Some h
  else intervals w = [].

(** The storage holds the configuration of the component, as JSON. *)
Definition storage_invariant (B : Browser) (w : World) : Prop :=
  localStorage w !! STORAGE_KEY = Some (JSON_stringify B (tgConfig (app w))).

(** The later of two alerts was checked more than 600000 ms after the earlier. *)
Definition apart (later earlier : PendingAlert) : Prop :=
  alert_now later - alert_now earlier > 600000.

(** The calls of [sendTelegramAlert] that returned [true], latest first. *)
Definition successes (settled : list (PendingAlert * bool)) : list PendingAlert :=
  map fst (List.filter snd settled).

(** In a serial run at most one call of [sendTelegramAlert] is suspended at
    any time: no check of the threshold passes while a send is awaited. *)
Definition serial (B : Browser) (tasks : list (Z * Event)) (w : World) : Prop :=
  forall k, (length (alertsInFlight (run B (firstn k tasks) w)) <= 1)%nat.

(** The successful sends are pairwise apart, none is later than the debounce
    cell, and every suspended send was checked more than 600000 ms past it. *)
Definition debounce_invariant (w : World) : Prop :=
  StronglySorted apart (successes (alertsSettled w))
  /\ Forall (fun s => alert_now s <= lastAlertTimeRef (app w)) (successes (alertsSettled w))
  /\ Forall (fun p => alert_now p - lastAlertTimeRef (app w) > 600000) (alertsInFlight w).

(** A number [Math.round] can return: an integer, [NaN] or an infinity. *)
Definition whole (n : number) : Prop :=
  match n with
  | Finite x => exists z, x = inject_Z z
  | _ => True
  end.

(** The price state before the first price, or as a poll that succeeded at
    [ts] left it: the last point of the history is the current price. *)
Definition price_state_consistent (B : Browser) (s : AppState) : Prop :=
  (currentPrice s = of_Z 0 /\ lastUpdated s = None
   /\ dataSource s = "Initializing..." /\ priceHistory s = [])
  \/ exists ts,
      lastUpdated s = Some ts
      /\ dataSource s = "Global Market (XAU/IDR)"
      /\ last (priceHistory s)
         = Some (PricePoint.mk (Date_toLocaleTimeString B ts) (currentPrice s)).

(** The message and the status of the log entry of a call of
    [sendTelegramAlert] that returned [ok]. *)
Definition alert_message (B : Browser) (p : PendingAlert) : string :=
  "Price threshold IDR " +:+ Number_toLocaleString B (alert_threshold p)
    +:+ " triggered at IDR " +:+ Number_toLocaleString B (alert_currentPrice p).

Definition alert_status (ok : bool) : LogStatus := if ok then success else failed.

(** A call of [sendTelegramAlert] that was made for a price above 0 and at or
    above the threshold, with a configuration that passes the guard of
    [sendTelegramAlert]. *)
Definition alert_guarded (p : PendingAlert) : Prop :=
  js_gt (alert_currentPrice p) (of_Z 0) = true
  /\ js_ge (alert_currentPrice p) (alert_threshold p) = true
  /\ TelegramConfig.botToken (alert_tgConfig p) <> EmptyString
  /\ TelegramConfig.chatId (alert_tgConfig p) <> EmptyString
  /\ TelegramConfig.enabled (alert_tgConfig p) = true.

(** At most one call of [handleFetchInsight] is suspended, and the loading
    flag is up while one is. *)
Definition insight_invariant (w : World) : Prop :=
  (length (insightsInFlight w) <= 1)%nat
  /\ (insightsInFlight w <> [] -> loadingInsight (app w) = true).

(** The three edits of the settings form, each a call of [setTgConfig]. *)
Definition config_edit (e : Event) : Prop :=
  match e with
  | ChangeBotToken _ | ChangeChatId _ | ClickEnabled => True
  | _ => False
  end.

(** ** A sample browser

    One browser to run the page in.  Integers print in decimal.  The JSON
    codec writes a configuration as an object with the keys botToken, chatId
    and enabled in this order and without blanks, a quote or a backslash
    inside a string escaped by a backslash, and reads that form back. *)
Module Sample.

Definition quote : ascii := "034"%char.
Definition backslash : ascii := "092"%char.
Definition q : string := String quote EmptyString.

Definition print_number (n : number) : string :=
  match n with
  | Finite x => Z_toString (Qfloor x)
  | NaN => "NaN"
  | PosInfinity => "Infinity"
  | NegInfinity => "-Infinity"
  end.

Fixpoint escape (s : string) : string :=
  match s with
  | EmptyString => EmptyString
  | String c r =>
      if Ascii.eqb c quote || Ascii.eqb c backslash
      then String backslash (String c (escape r))
      else String c (escape r)
  end.

(** The string up to the closing quote, unescaped, and what follows the quote. *)
Fixpoint read_quoted (s : string) : option (string * string) :=
  match s with
  | EmptyString => None
  | String c r =>
      if Ascii.eqb c quote then Some (EmptyString, r)
      else if Ascii.eqb c backslash then
        match r with
        | EmptyString => None
        | String d r' =>
            match read_quoted r' with
            | Some (body, rest) => Some (String d body, rest)
            | None => None
            end
        end
      else
        match read_quoted r with
        | Some (body, rest) => Some (String c body, rest)
        | None => None
        end
  end.

(** [s] without its prefix [p]. *)
Fixpoint after (p s : string) : option string :=
  match p, s with
  | EmptyString, _ => Some s
  | String a p', String b s' => if Ascii.eqb a b then after p' s' else None
  | String _ _, EmptyString => None
  end.

Definition key_botToken : string := "{" +:+ q +:+ "botToken" +:+ q +:+ ":" +:+ q.
Definition key_chatId : string := "," +:+ q +:+ "chatId" +:+ q +:+ ":" +:+ q.
Definition key_enabled : string := "," +:+ q +:+ "enabled" +:+ q +:+ ":".

Definition stringify (c : TelegramConfig.t) : string :=
  key_botToken +:+ escape (TelegramConfig.botToken c) +:+ q
  +:+ key_chatId +:+ escape (TelegramConfig.chatId c) +:+ q
  +:+ key_enabled +:+ (if TelegramConfig.enabled c then "true" else "false") +:+ "}".

Definition parse (s : string) : Outcome TelegramConfig.t :=
  match after key_botToken s with
  | None => Thrown "SyntaxError"
  | Some s1 =>
      match read_quoted s1 with
      | None => Thrown "SyntaxError"
      | Some (token, s2) =>
          match after key_chatId s2 with
          | None => Thrown "SyntaxError"
          | Some s3 =>
              match read_quoted s3 with
              | None => Thrown "SyntaxError"
              | Some (chat, s4) =>
                  match after key_enabled s4 with
                  | None => Thrown "SyntaxError"
                  | Some s5 =>
                      if String.eqb s5 "true}" then
                        Returned (TelegramConfig.mk token chat true)
                      else if String.eqb s5 "false}" then
                        Returned (TelegramConfig.mk token chat false)
                      else Thrown "SyntaxError"
                  end
              end
          end
      end
  end.

Definition browser : Browser :=
  {| Number_toLocaleString := print_number;
     Number_toLocaleString_id := print_number;
     Date_toLocaleString := Z_toString;
     Date_toLocaleTimeString := Z_toString;
     String_trim := fun s => s;
     JSON_stringify := stringify;
     JSON_parse := parse;
     JSON_parse_insight := fun _ => Thrown "SyntaxError" |}.

(** The clock when the page is loaded. *)
Definition t0 : Z := 1730000000000.

(** A page loaded over an empty storage. *)
Definition fresh : World :=
  match mount browser t0 ∅ with
  | Returned w => w
  | Thrown _ => mkWorld (initial_state default_tgConfig) ∅ [] 1%nat None 0%nat [] [] [] [] []
  end.

(** A feed that quotes the ounce at 100 000 000 rupiah. *)
Definition feed : FeedResponse := FeedResponds true (BodyXau (Some (of_Z 100000000))).

(** The user configures the bot and starts monitoring; the first price,
    3 215 075 rupiah per gram, is above the threshold and an alert is sent;
    while it is on its way the user edits the threshold; both alerts are
    accepted by Telegram. *)
Definition two_alerts : list (Z * Event) :=
  [ (t0 + 2000, ChangeBotToken "123:abc");
    (t0 + 3000, ChangeChatId "42");
    (t0 + 4000, ClickEnabled);
    (t0 + 5000, ClickMonitoring);
    (t0 + 5400, PriceSettles feed);
    (t0 + 5500, ChangeThreshold (of_Z 3000000));
    (t0 + 5700, AlertSettles 0%nat (TelegramResponds true));
    (t0 + 5800, AlertSettles 0%nat (TelegramResponds true)) ].

(** The same, but the user edits the threshold after Telegram has answered,
    a little under twelve minutes later. *)
Definition two_alerts_serial : list (Z * Event) :=
  [ (t0 + 2000, ChangeBotToken "123:abc");
    (t0 + 3000, ChangeChatId "42");
    (t0 + 4000, ClickEnabled);
    (t0 + 5000, ClickMonitoring);
    (t0 + 5400, PriceSettles feed);
    (t0 + 5700, AlertSettles 0%nat (TelegramResponds true));
    (t0 + 700000, ChangeThreshold (of_Z 3000000));
    (t0 + 700300, AlertSettles 0%nat (TelegramResponds true)) ].

(** Thirty-one polls answered by the feed, the page monitoring. *)
Definition polls : list (Z * Event) :=
  (t0 + 5000, ClickMonitoring) :: (t0 + 5400, PriceSettles feed)
  :: flat_map (fun k => [(t0 + 5000 + Z.of_nat k * 60000, IntervalFires 1%nat);
                         (t0 + 5400 + Z.of_nat k * 60000, PriceSettles feed)])
       (seq 1 30).

(** The page monitors, the first price arrives, and the user asks for an
    insight. *)
Definition insight_asked : list (Z * Event) :=
  [ (t0 + 5000, ClickMonitoring);
    (t0 + 5400, PriceSettles feed);
    (t0 + 8000, ClickInsight) ].

(** A storage that holds a key of some other page. *)
Definition shared_storage : gmap string string := <["theme" := "dark"]> ∅.

(** A storage whose configuration is not JSON. *)
Definition broken_storage : gmap string string := <["gold_tg_config" := "oops"]> ∅.

End Sample.

(** * Properties *)

(** ** Arrays *)

Lemma Array_slice_last_30 {A : Type} (l : list A) :
  Array_slice (-30) None l = skipn (length l - 30) l.
Proof.
  unfold Array_slice. simpl.
  replace (Z.to_nat (Z.max (Z.of_nat (length l) + -30) 0)) with (length l - 30)%nat by lia.
  apply firstn_all2. rewrite length_skipn. lia.
Qed.

Lemma Array_slice_first_50 {A : Type} (l : list A) :
  Array_slice 0 (Some 50) l = firstn 50 l.
Proof.
  unfold Array_slice. simpl.
  replace (Z.min 0 (Z.of_nat (length l))) with 0 by lia. rewrite Z.sub_0_r. simpl.
  destruct (Z.min_spec 50 (Z.of_nat (length l))) as [[Hlt ->] | [Hge ->]].
  - reflexivity.
  - rewrite Nat2Z.id. rewrite !firstn_all2; auto; lia.
Qed.

Lemma Array_slice_last_30_length {A : Type} (l : list A) :
  (length (Array_slice (-30) None l) <= 30)%nat.
Proof. rewrite Array_slice_last_30, length_skipn. lia. Qed.

(** An append to a buffer that is not full keeps every point. *)
Lemma window_not_full {A : Type} (h : list A) (x : A) :
  (length h < 30)%nat -> Array_slice (-30) None (h ++ [x]) = h ++ [x].
Proof.
  intros Hlen. rewrite Array_slice_last_30, length_app. simpl.
  replace (length h + 1 - 30)%nat with 0%nat by lia. reflexivity.
Qed.

(** An append to a full buffer drops the oldest point and no other. *)
Lemma window_full {A : Type} (h : list A) (x : A) :
  length h = 30%nat -> Array_slice (-30) None (h ++ [x]) = tail h ++ [x].
Proof.
  intros Hlen. rewrite Array_slice_last_30, length_app. simpl.
  replace (length h + 1 - 30)%nat with 1%nat by lia.
  destruct h as [| y h']; [discriminate | reflexivity].
Qed.

Lemma window_last {A : Type} (h : list A) (x : A) :
  last (Array_slice (-30) None (h ++ [x])) = Some x.
Proof.
  rewrite Array_slice_last_30, length_app. simpl.
  assert (Hsplit : (length h + 1 - 30 <= length h)%nat) by lia.
  rewrite skipn_app.
  replace (length h + 1 - 30 - length h)%nat with 0%nat by lia.
  simpl. apply last_snoc.
Qed.

(** ** Runs and invariants *)

Section Page.

Variable B : Browser.

Lemma run_nil (w : World) : run B [] w = w.
Proof. reflexivity. Qed.

Lemma run_cons (now : Z) (e : Event) (tasks : list (Z * Event)) (w : World) :
  run B ((now, e) :: tasks) w = run B tasks (step B now e w).
Proof. reflexivity. Qed.

(** A property that every task preserves holds along every run. *)
Lemma run_invariant (P : World -> Prop) :
  (forall now e w, P w -> P (step B now e w)) ->
  forall tasks w, P w -> P (run B tasks w).
Proof.
  intros Hstep tasks. induction tasks as [| [now e] tasks IH]; intros w Hw.
  - exact Hw.
  - rewrite run_cons. apply IH, Hstep, Hw.
Qed.

(** Case analysis on the [match] and [if] of a goal. *)
Ltac break_match :=
  match goal with
  | |- context [match ?x with _ => _ end] =>
      lazymatch x with
      | context [match _ with _ => _ end] => fail
      | _ => destruct x eqn:?
      end
  end.

Ltac unfold_effects :=
  unfold run_effects, alert_effect, settle_alert, monitoring_effect,
    monitoring_cleanup, persistence_effect, call_fetchPrice, click_insight,
    clearInterval, setInterval, checkThreshold_resume, handleFetchInsight_call,
    handleFetchInsight_resume, fetchPrice_call.

Ltac frame := unfold_effects; simpl; repeat (break_match; simpl); auto.

(** *** What the effects leave alone *)

(** The alert check writes the logs and the debounce cell, and nothing else
    of the component. *)
Lemma alert_effect_frame (now : Z) (w : World) :
  let w' := alert_effect B now w in
  currentPrice (app w') = currentPrice (app w)
  /\ lastUpdated (app w') = lastUpdated (app w)
  /\ dataSource (app w') = dataSource (app w)
  /\ threshold (app w') = threshold (app w)
  /\ priceHistory (app w') = priceHistory (app w)
  /\ isMonitoring (app w') = isMonitoring (app w)
  /\ insight (app w') = insight (app w)
  /\ loadingInsight (app w') = loadingInsight (app w)
  /\ loadingPrice (app w') = loadingPrice (app w)
  /\ tgConfig (app w') = tgConfig (app w).
Proof. frame; repeat split; congruence. Qed.

(** The effects after a render leave the price state, the threshold, the
    monitoring flag, the insight and the configuration as the render had them. *)
Lemma run_effects_frame (now : Z) (old : AppState) (configSet : bool) (w : World) :
  let w' := run_effects B now old configSet w in
  currentPrice (app w') = currentPrice (app w)
  /\ lastUpdated (app w') = lastUpdated (app w)
  /\ dataSource (app w') = dataSource (app w)
  /\ threshold (app w') = threshold (app w)
  /\ priceHistory (app w') = priceHistory (app w)
  /\ isMonitoring (app w') = isMonitoring (app w)
  /\ insight (app w') = insight (app w)
  /\ loadingInsight (app w') = loadingInsight (app w)
  /\ tgConfig (app w') = tgConfig (app w).
Proof. frame; repeat split; congruence. Qed.

(** ** The price history *)

(** Only a poll that succeeds writes the history, and it writes the last
    thirty points of the history with the new point at its end. *)
Lemma step_priceHistory (now : Z) (e : Event) (w : World) :
  priceHistory (app (step B now e w)) = priceHistory (app w)
  \/ exists net data,
      e = PriceSettles net /\ fetchLiveGoldPrice net now = Returned data
      /\ priceHistory (app (step B now e w))
         = Array_slice (-30) None (priceHistory (app w) ++ [newPoint B data]).
Proof.
  destruct e; unfold step;
    try (left;
         match goal with
         | |- context [run_effects B now ?old ?c ?w1] =>
             destruct (run_effects_frame now old c w1) as (_ & _ & _ & _ & -> & _)
         end; reflexivity);
    try (left; frame; fail).
  destruct (pricesInFlight w) as [| n]; [left; reflexivity |].
  destruct (run_effects_frame now (app w) false
              (with_app (fetchPrice_resume B (fetchLiveGoldPrice net now))
                 (with_pricesInFlight n w))) as (_ & _ & _ & _ & -> & _).
  simpl. unfold fetchPrice_resume.
  destruct (fetchLiveGoldPrice net now) as [data | msg] eqn:Hfetch.
  - right. exists net, data. auto.
  - left. reflexivity.
Qed.

Lemma mount_priceHistory (now : Z) (storage : gmap string string) (w : World) :
  mount B now storage = Returned w -> priceHistory (app w) = [].
Proof.
  unfold mount. destruct (initial_tgConfig B storage) as [config | msg]; [| discriminate].
  intros [= <-]. frame.
Qed.

(** C1. The price history is a sliding window of thirty points.  In every
    state the page reaches its length is at most 30; and when a poll succeeds
    there, the new point becomes the last one, every point is kept while the
    buffer holds fewer than 30, and a full buffer loses its oldest point and
    no other. *)
Theorem priceHistory_sliding_window
    (now0 : Z) (storage : gmap string string) (w0 : World) (tasks : list (Z * Event)) :
  mount B now0 storage = Returned w0 ->
  let w := run B tasks w0 in
  (length (priceHistory (app w)) <= 30)%nat
  /\ forall now net data,
       fetchLiveGoldPrice net now = Returned data ->
       pricesInFlight w <> 0%nat ->
       let h := priceHistory (app w) in
       let h' := priceHistory (app (step B now (PriceSettles net) w)) in
       last h' = Some (newPoint B data)
       /\ ((length h < 30)%nat -> h' = h ++ [newPoint B data])
       /\ (length h = 30%nat -> h' = tail h ++ [newPoint B data]).
Proof.
  intros Hmount w. split.
  - subst w. apply (run_invariant (fun w => (length (priceHistory (app w)) <= 30)%nat)).
    + intros now e w Hw.
      destruct (step_priceHistory now e w) as [-> | (net & data & _ & _ & ->)];
        [exact Hw | apply Array_slice_last_30_length].
    + rewrite (mount_priceHistory _ _ _ Hmount). simpl. lia.
  - intros now net data Hfetch Hflight h h'.
    assert (Hh' : h' = Array_slice (-30) None (h ++ [newPoint B data])).
    { subst h h'. unfold step.
      destruct (pricesInFlight w) as [| n]; [congruence |].
      destruct (run_effects_frame now (app w) false
                  (with_app (fetchPrice_resume B (fetchLiveGoldPrice net now))
                     (with_pricesInFlight n w))) as (_ & _ & _ & _ & -> & _).
      rewrite Hfetch. reflexivity. }
    rewrite Hh'. split; [apply window_last |].
    split; [apply window_not_full | apply window_full].
Qed.

(** ** A poll that fails *)

Lemma Object_is_refl (a : number) : Object_is a a = true.
Proof.
  destruct a as [x | | |]; try reflexivity.
  unfold Object_is, js_strict_eq. simpl.
  replace (x ?= x)%Q with Eq; [reflexivity |].
  symmetry. apply Qeq_alt. reflexivity.
Qed.

(** No effect runs after a render that changed no dependency. *)
Lemma run_effects_same_deps (now : Z) (old : AppState) (w : World) :
  isMonitoring (app w) = isMonitoring old ->
  currentPrice (app w) = currentPrice old ->
  threshold (app w) = threshold old ->
  run_effects B now old false w = w.
Proof.
  intros Hm Hp Ht. unfold run_effects. rewrite Hm, Hp, Ht.
  rewrite !Object_is_refl. rewrite Bool.eqb_reflx. reflexivity.
Qed.

(** C8. A poll that fails leaves the price state as it was.  When
    [fetchLiveGoldPrice] throws, the task that resumes [fetchPrice] changes
    none of [currentPrice], [lastUpdated], [dataSource] and [priceHistory]:
    the state after it is the state before it with [loadingPrice] reset, the
    call having set that flag; and a response that is not ok makes
    [fetchLiveGoldPrice] throw. *)
Theorem failed_poll_is_atomic
    (now : Z) (net : FeedResponse) (msg : string) (w : World) :
  fetchLiveGoldPrice net now = Thrown msg ->
  let w' := step B now (PriceSettles net) w in
  currentPrice (app w') = currentPrice (app w)
  /\ lastUpdated (app w') = lastUpdated (app w)
  /\ dataSource (app w') = dataSource (app w)
  /\ priceHistory (app w') = priceHistory (app w)
  /\ (pricesInFlight w <> 0%nat -> app w' = setLoadingPrice false (app w))
  /\ app (call_fetchPrice w) = setLoadingPrice true (app w)
  /\ fetchPrice_resume B (Thrown msg) (fetchPrice_call (app w))
     = setLoadingPrice false (app w)
  /\ forall body clock,
       fetchLiveGoldPrice (FeedResponds false body) clock
       = Thrown "Failed to fetch from primary source".
Proof.
  intros Hfetch w'. subst w'. unfold step.
  destruct (pricesInFlight w) as [| n].
  - repeat split; try reflexivity. intros Hflight. congruence.
  - rewrite Hfetch, run_effects_same_deps by reflexivity.
    repeat split; reflexivity.
Qed.

(** ** Alerts *)

(** [checkThreshold] calls [sendTelegramAlert] only past its two guards, and
    with the values of the render the effect belongs to. *)
Lemma checkThreshold_call_Some (now : Z) (s : AppState) (p : PendingAlert) :
  checkThreshold_call now s = Some p ->
  isMonitoring s = true
  /\ js_gt (currentPrice s) (of_Z 0) = true
  /\ js_ge (currentPrice s) (threshold s) = true
  /\ now - lastAlertTimeRef s > 600000
  /\ p = mkPendingAlert (tgConfig s) (currentPrice s) (threshold s) now.
Proof.
  unfold checkThreshold_call.
  destruct (isMonitoring s); simpl; [| discriminate].
  destruct (js_gt (currentPrice s) (of_Z 0)); simpl; [| discriminate].
  destruct (js_ge (currentPrice s) (threshold s)); simpl; [| discriminate].
  destruct (now - lastAlertTimeRef s >? 600000) eqn:Hgap; [| discriminate].
  intros [= <-]. repeat split. lia.
Qed.

Lemma sendTelegramAlert_call_false (config : TelegramConfig.t) (ok : bool) :
  sendTelegramAlert_call config = Some ok -> ok = false.
Proof. unfold sendTelegramAlert_call. destruct (_ || _); congruence. Qed.

Lemma alert_effect_check (now : Z) (w : World) : alert_check B now w (alert_effect B now w).
Proof.
  unfold alert_effect.
  destruct (checkThreshold_call now (app w)) as [p |] eqn:Hcall;
    [| apply check_skips; reflexivity].
  destruct (sendTelegramAlert_call (alert_tgConfig p)) as [ok |] eqn:Hsend.
  - pose proof (sendTelegramAlert_call_false _ _ Hsend) as ->.
    apply (check_fails_at_once B now w _ p); auto.
  - apply (check_sends B now w _ p); auto.
Qed.

(** The guards of [checkThreshold] read the monitoring flag, the price, the
    threshold, the configuration and the debounce cell only. *)
Lemma checkThreshold_call_ext (now : Z) (s s' : AppState) :
  isMonitoring s' = isMonitoring s ->
  currentPrice s' = currentPrice s ->
  threshold s' = threshold s ->
  tgConfig s' = tgConfig s ->
  lastAlertTimeRef s' = lastAlertTimeRef s ->
  checkThreshold_call now s' = checkThreshold_call now s.
Proof. intros Hm Hp Ht Hc Hl. unfold checkThreshold_call. rewrite Hm, Hp, Ht, Hc, Hl. reflexivity. Qed.

(** The effects after a render run the alert check at most once, on the state
    of the render. *)
Lemma run_effects_check (now : Z) (old : AppState) (configSet : bool) (w : World) :
  alert_check B now w (run_effects B now old configSet w).
Proof.
  unfold run_effects.
  set (w1 := if configSet then persistence_effect B w else w).
  set (w2 := if negb (Bool.eqb (isMonitoring old) (isMonitoring (app w)))
             then monitoring_effect (monitoring_cleanup w1) else w1).
  assert (H2 : alertsAttempted w2 = alertsAttempted w
               /\ alertsSettled w2 = alertsSettled w
               /\ alertsInFlight w2 = alertsInFlight w
               /\ logs (app w2) = logs (app w)
               /\ lastAlertTimeRef (app w2) = lastAlertTimeRef (app w)
               /\ forall t, checkThreshold_call t (app w2) = checkThreshold_call t (app w)).
  { subst w2 w1. frame; repeat split; auto;
      intros t; apply checkThreshold_call_ext; reflexivity. }
  destruct H2 as (Ha & Hs & Hf & Hl & Hr & Hc).
  destruct (_ || _).
  - destruct (alert_effect_check now w2) as [? ? ? ? ? | p Hp ? ? ? ? ? ? | p Hp ? ? ? ? ? ?].
    + apply check_skips; congruence.
    + apply (check_sends B now w _ p); congruence.
    + apply (check_fails_at_once B now w _ p); congruence.
  - apply check_skips; assumption.
Qed.

Lemma head_first_50 {A : Type} (x : A) (l : list A) :
  head (Array_slice 0 (Some 50) (x :: l)) = Some x.
Proof. rewrite Array_slice_first_50. reflexivity. Qed.

Lemma sendTelegramAlert_at_guard (config : TelegramConfig.t) (net : TelegramResponse) :
  sendTelegramAlert_call config = Some false -> sendTelegramAlert config net = false.
Proof. unfold sendTelegramAlert. intros ->. reflexivity. Qed.

Lemma run_effects_alerts (now : Z) (old : AppState) (configSet : bool) (w : World) :
  attempt_guarded now w (run_effects B now old configSet w)
  /\ settlement_logged B now w (run_effects B now old configSet w).
Proof.
  pose proof (run_effects_frame now old configSet w) as (Hp & _ & _ & Ht & _ & Hm & _).
  unfold attempt_guarded, settlement_logged.
  destruct (run_effects_check now old configSet w)
    as [Ha Hs Hf Hl _ | p Hcall Hsend Ha Hs Hf Hl _ | p Hcall Hsend Ha Hs Hf Hl _].
  - split; left; auto.
  - apply checkThreshold_call_Some in Hcall as (Gm & Ggt & Gge & Ggap & ->).
    split; [right | left; auto].
    exists (mkPendingAlert (tgConfig (app w)) (currentPrice (app w)) (threshold (app w)) now).
    rewrite Hp, Ht, Hm. simpl. repeat split; auto.
  - apply checkThreshold_call_Some in Hcall as (Gm & Ggt & Gge & Ggap & ->).
    split; right.
    + exists (mkPendingAlert (tgConfig (app w)) (currentPrice (app w)) (threshold (app w)) now).
      rewrite Hp, Ht, Hm. simpl. repeat split; auto.
    + exists (mkPendingAlert (tgConfig (app w)) (currentPrice (app w)) (threshold (app w)) now),
             TelegramUnreachable.
      simpl in Hsend. cbv zeta. rewrite (sendTelegramAlert_at_guard _ _ Hsend).
      rewrite Hl. repeat split; auto using head_first_50.
Qed.

(** What a task does to the alerts. *)
Lemma step_alerts (now : Z) (e : Event) (w : World) :
  attempt_guarded now w (step B now e w) /\ settlement_logged B now w (step B now e w).
Proof.
  destruct e; unfold step;
    try (match goal with
         | |- context [run_effects B now ?old ?c ?w1] =>
             exact (run_effects_alerts now old c w1)
         end);
    try (split; left; frame; fail).
  - destruct (pricesInFlight w) as [| n]; [split; left; auto |].
    destruct (fetchLiveGoldPrice net now) as [data | msg].
    + exact (run_effects_alerts now (app w) false
               (with_app (fetchPrice_resume B (Returned data)) (with_pricesInFlight n w))).
    + exact (run_effects_alerts now (app w) false
               (with_app (fetchPrice_resume B (Thrown msg)) (with_pricesInFlight n w))).
  - destruct (alertsInFlight w !! i) as [p |] eqn:Hi; [| split; left; auto].
    split; [left; reflexivity | right].
    exists p, net. cbv zeta. unfold settle_alert. simpl.
    unfold checkThreshold_resume.
    destruct (sendTelegramAlert (alert_tgConfig p) net);
      simpl; repeat split; auto using head_first_50.
Qed.

(** C3. Alerts are threshold based.  A task calls [sendTelegramAlert] at most
    once, and only when the page is monitoring, the price is above 0 and the
    price is at or above the threshold; the call is suspended or has failed at
    its guard.  Whenever a call settles, in the same task or in a later one,
    the entry of that call is put in front of the logs (of which fifty are
    kept): it names the threshold and the price of the call, and its status is
    [success] exactly when [sendTelegramAlert] returned [true]. *)
Theorem alerts_are_threshold_based (now : Z) (e : Event) (w : World) :
  let w' := step B now e w in
  (alertsAttempted w' = alertsAttempted w
   \/ exists p,
       alertsAttempted w' = p :: alertsAttempted w
       /\ isMonitoring (app w') = true
       /\ js_gt (currentPrice (app w')) (of_Z 0) = true
       /\ js_ge (currentPrice (app w')) (threshold (app w')) = true
       /\ alert_currentPrice p = currentPrice (app w')
       /\ alert_threshold p = threshold (app w')
       /\ (alertsInFlight w' = alertsInFlight w ++ [p]
           \/ alertsSettled w' = (p, false) :: alertsSettled w))
  /\ ((alertsSettled w' = alertsSettled w /\ logs (app w') = logs (app w))
      \/ exists p net,
          let ok := sendTelegramAlert (alert_tgConfig p) net in
          let entry := alert_log B now p ok in
          alertsSettled w' = (p, ok) :: alertsSettled w
          /\ logs (app w') = Array_slice 0 (Some 50) (entry :: logs (app w))
          /\ head (logs (app w')) = Some entry
          /\ (NotificationLog.status entry = success <-> ok = true)
          /\ NotificationLog.message entry
             = "Price threshold IDR " +:+ Number_toLocaleString B (alert_threshold p)
               +:+ " triggered at IDR " +:+ Number_toLocaleString B (alert_currentPrice p))
  /\ (forall i net p,
        e = AlertSettles i net -> alertsInFlight w !! i = Some p ->
        alertsSettled w' = (p, sendTelegramAlert (alert_tgConfig p) net) :: alertsSettled w).
Proof.
  intros w'.
  assert (Hstatus : forall p ok,
            NotificationLog.status (alert_log B now p ok) = success <-> ok = true).
  { intros p [|]; simpl; split; congruence. }
  destruct (step_alerts now e w) as [Hattempt Hsettle]. fold w' in Hattempt, Hsettle.
  split; [| split].
  - destruct Hattempt as [Hsame | (p & Hp)]; [left; assumption | right].
    exists p. intuition.
  - destruct Hsettle as [Hsame | (p & net & Hp)]; [left; assumption | right].
    exists p, net. cbv zeta in *. destruct Hp as (Hs & Hl & Hh).
    repeat split; auto; apply Hstatus.
  - intros i net p -> Hi. subst w'. unfold step. rewrite Hi. reflexivity.
Qed.

Lemma mount_logs (now : Z) (storage : gmap string string) (w : World) :
  mount B now storage = Returned w -> logs (app w) = [].
Proof.
  unfold mount. destruct (initial_tgConfig B storage) as [config | msg]; [| discriminate].
  intros [= <-]. frame.
Qed.

(** The alert log is bounded: in every state the page reaches it holds at
    most fifty entries. *)
Theorem logs_bounded
    (now0 : Z) (storage : gmap string string) (w0 : World) (tasks : list (Z * Event)) :
  mount B now0 storage = Returned w0 ->
  (length (logs (app (run B tasks w0))) <= 50)%nat.
Proof.
  intros Hmount.
  apply (run_invariant (fun w => (length (logs (app w)) <= 50)%nat)).
  - intros now e w Hw.
    destruct (step_alerts now e w) as [_ [[_ ->] | (p & net & _ & -> & _)]];
      [exact Hw |].
    rewrite Array_slice_first_50, length_firstn. lia.
  - rewrite (mount_logs _ _ _ Hmount). simpl. lia.
Qed.

(** ** The polling timer *)

(** The monitoring loop is the only effect that touches the timers, and it
    runs when, and only when, the monitoring flag changed. *)
Lemma run_effects_timers (now : Z) (old : AppState) (configSet : bool) (w : World) :
  let w' := run_effects B now old configSet w in
  let m := if Bool.eqb (isMonitoring old) (isMonitoring (app w)) then w
           else monitoring_effect (monitoring_cleanup w) in
  intervals w' = intervals m
  /\ interval w' = interval m
  /\ nextHandle w' = nextHandle m
  /\ pricesInFlight w' = pricesInFlight m
  /\ loadingPrice (app w') = loadingPrice (app m).
Proof.
  unfold run_effects.
  destruct (Bool.eqb (isMonitoring old) (isMonitoring (app w))); simpl;
    frame; repeat split; congruence.
Qed.

Lemma monitoring_starts (w : World) :
  intervals w = [] ->
  let w' := monitoring_effect (monitoring_cleanup (with_app (setIsMonitoring true) w)) in
  intervals w' = [mkInterval (nextHandle w) CallFetchPrice 60000]
  /\ interval w' = Some (nextHandle w)
  /\ pricesInFlight w' = S (pricesInFlight w)
  /\ loadingPrice (app w') = true.
Proof.
  intros Hnone. unfold monitoring_effect, monitoring_cleanup, clearInterval.
  simpl. destruct (interval w) as [h |]; simpl; rewrite Hnone; simpl; auto.
Qed.

Lemma monitoring_stops (w : World) (h : nat) :
  intervals w = [mkInterval h CallFetchPrice 60000] ->
  interval w = Some h ->
  let w' := monitoring_effect (monitoring_cleanup (with_app (setIsMonitoring false) w)) in
  intervals w' = [] /\ interval w' = None /\ pricesInFlight w' = pricesInFlight w.
Proof.
  intros Hone Hh. unfold monitoring_effect, monitoring_cleanup, clearInterval.
  simpl. rewrite Hh. simpl. rewrite Hone. simpl. rewrite Nat.eqb_refl. simpl. auto.
Qed.

(** A render that leaves the monitoring flag alone leaves the timers alone. *)
Lemma effects_keep_timers (now : Z) (configSet : bool) (w w1 : World) :
  isMonitoring (app w1) = isMonitoring (app w) ->
  intervals w1 = intervals w ->
  interval w1 = interval w ->
  timer_invariant w ->
  timer_invariant (run_effects B now (app w) configSet w1).
Proof.
  intros Hm Hi Hh Hw. unfold timer_invariant.
  pose proof (run_effects_frame now (app w) configSet w1) as (_ & _ & _ & _ & _ & -> & _).
  pose proof (run_effects_timers now (app w) configSet w1) as (-> & -> & _).
  rewrite Hm, Bool.eqb_reflx, Hi, Hh. exact Hw.
Qed.

Lemma toggle_timers (now : Z) (w : World) :
  let w1 := with_app (setIsMonitoring (negb (isMonitoring (app w)))) w in
  let w' := step B now ClickMonitoring w in
  isMonitoring (app w') = negb (isMonitoring (app w))
  /\ intervals w' = intervals (monitoring_effect (monitoring_cleanup w1))
  /\ interval w' = interval (monitoring_effect (monitoring_cleanup w1))
  /\ pricesInFlight w' = pricesInFlight (monitoring_effect (monitoring_cleanup w1))
  /\ loadingPrice (app w') = loadingPrice (app (monitoring_effect (monitoring_cleanup w1))).
Proof.
  intros w1 w'. subst w'. unfold step. fold w1.
  pose proof (run_effects_frame now (app w) false w1) as (_ & _ & _ & _ & _ & -> & _).
  pose proof (run_effects_timers now (app w) false w1) as (-> & -> & _ & -> & ->).
  subst w1. simpl. destruct (isMonitoring (app w)); simpl; auto.
Qed.

Lemma step_timer_invariant (now : Z) (e : Event) (w : World) :
  timer_invariant w -> timer_invariant (step B now e w).
Proof.
  intros Hw. destruct e;
    try (unfold step; apply effects_keep_timers; auto; reflexivity);
    try (unfold step; frame; fail).
  - (* the Start/Stop button *)
    pose proof (toggle_timers now w) as (Hm & Hi & Hh & _).
    unfold timer_invariant in *. rewrite Hm, Hi, Hh.
    destruct (isMonitoring (app w)); simpl negb; cbv iota.
    + destruct Hw as (h & Hone & Hsome).
      apply (monitoring_stops w h Hone Hsome).
    + exists (nextHandle w). pose proof (monitoring_starts w Hw) as (? & ? & _). auto.
  - (* a poll settles *)
    unfold step. destruct (pricesInFlight w) as [| n]; [exact Hw |].
    apply effects_keep_timers; auto.
    unfold fetchPrice_resume. simpl. destruct (fetchLiveGoldPrice net now); reflexivity.
Qed.

Lemma mount_timer_invariant (now : Z) (storage : gmap string string) (w : World) :
  mount B now storage = Returned w -> timer_invariant w.
Proof.
  unfold mount. destruct (initial_tgConfig B storage) as [config | msg]; [| discriminate].
  intros [= <-]. unfold timer_invariant. frame.
Qed.

(** C4. There is a single polling timer.  In every state the page reaches
    at most one interval timer exists.  Turning monitoring on there calls
    [fetchPrice] at once and leaves exactly one timer, which calls
    [fetchPrice] every 60000 ms; turning it off leaves no timer.  A timer that
    fires calls [fetchPrice]. *)
Theorem single_polling_timer
    (now0 : Z) (storage : gmap string string) (w0 : World) (tasks : list (Z * Event)) :
  mount B now0 storage = Returned w0 ->
  let w := run B tasks w0 in
  (length (intervals w) <= 1)%nat
  /\ (forall now, isMonitoring (app w) = false ->
       let w' := step B now ClickMonitoring w in
       isMonitoring (app w') = true
       /\ pricesInFlight w' = S (pricesInFlight w)
       /\ loadingPrice (app w') = true
       /\ exists h, intervals w' = [mkInterval h CallFetchPrice 60000])
  /\ (forall now, isMonitoring (app w) = true ->
       let w' := step B now ClickMonitoring w in
       isMonitoring (app w') = false /\ intervals w' = [])
  /\ (forall now t, In t (intervals w) ->
       step B now (IntervalFires (handle t)) w = call_fetchPrice w).
Proof.
  intros Hmount w.
  assert (Hinv : timer_invariant w).
  { subst w. apply run_invariant.
    - intros now e w. apply step_timer_invariant.
    - apply (mount_timer_invariant _ _ _ Hmount). }
  unfold timer_invariant in Hinv. split; [| split; [| split]].
  - destruct (isMonitoring (app w)).
    + destruct Hinv as (h & -> & _). simpl. lia.
    + rewrite Hinv. simpl. lia.
  - intros now Hoff w'. rewrite Hoff in Hinv.
    pose proof (toggle_timers now w) as (Hm & Hi & _ & Hf & Hl). fold w' in Hm, Hi, Hf, Hl.
    rewrite Hoff in *. simpl negb in *.
    pose proof (monitoring_starts w Hinv) as (Hone & _ & Hflight & Hload).
    rewrite Hm, Hi, Hf, Hl. repeat split; auto. exists (nextHandle w). exact Hone.
  - intros now Hon w'. rewrite Hon in Hinv. destruct Hinv as (h & Hone & Hsome).
    pose proof (toggle_timers now w) as (Hm & Hi & _). fold w' in Hm, Hi.
    rewrite Hon in *. simpl negb in *.
    pose proof (monitoring_stops w h Hone Hsome) as (Hnone & _).
    rewrite Hm, Hi. auto.
  - intros now t Hin. unfold step.
    replace (existsb _ (intervals w)) with true; [reflexivity |].
    symmetry. apply existsb_exists. exists t. split; [exact Hin | apply Nat.eqb_refl].
Qed.

(** ** The stored configuration *)

(** Of the effects only the persistence effect writes the storage, and it
    runs when [setTgConfig] was called. *)
Lemma run_effects_storage (now : Z) (old : AppState) (configSet : bool) (w : World) :
  localStorage (run_effects B now old configSet w)
  = if configSet
    then <[STORAGE_KEY := JSON_stringify B (tgConfig (app w))]> (localStorage w)
    else localStorage w.
Proof. frame. Qed.

Lemma step_storage_invariant (now : Z) (e : Event) (w : World) :
  storage_invariant B w -> storage_invariant B (step B now e w).
Proof.
  unfold storage_invariant. intros Hw.
  destruct e; unfold step;
    try (match goal with
         | |- context [run_effects B now ?old ?c ?w1] =>
             pose proof (run_effects_frame now old c w1) as (_ & _ & _ & _ & _ & _ & _ & _ & ->);
             rewrite (run_effects_storage now old c w1)
         end; simpl; rewrite ?lookup_insert_eq; auto; fail);
    try (frame; fail).
Qed.

(** Loading the page: the configuration it starts with, and the storage the
    first run of the persistence effect leaves. *)
Lemma mount_Returned (now : Z) (storage : gmap string string) (w : World) :
  mount B now storage = Returned w ->
  exists config,
    initial_tgConfig B storage = Returned config
    /\ tgConfig (app w) = config
    /\ localStorage w = <[STORAGE_KEY := JSON_stringify B config]> storage.
Proof.
  unfold mount. destruct (initial_tgConfig B storage) as [config | msg]; [| discriminate].
  intros [= <-]. exists config. split; [reflexivity |]. frame.
Qed.

Lemma mount_of_config (now : Z) (storage : gmap string string) (config : TelegramConfig.t) :
  initial_tgConfig B storage = Returned config ->
  exists w, mount B now storage = Returned w /\ tgConfig (app w) = config.
Proof.
  intros Hinit. unfold mount. rewrite Hinit. eexists. split; [reflexivity |]. frame.
Qed.

(** C5. The Telegram configuration round-trips through the storage.  In
    every state the page reaches, and so after every change of the
    configuration, [localStorage] holds under ['gold_tg_config'] the JSON of
    the configuration of the component.  A page loaded over that storage
    starts with the same configuration, whenever [JSON.parse] reads back what
    [JSON.stringify] wrote for it, which is not the empty string.  A page
    loaded over a storage without the key starts with
    [{ botToken: '', chatId: '', enabled: false }]. *)
Theorem tgConfig_round_trips
    (now0 : Z) (storage : gmap string string) (w0 : World) (tasks : list (Z * Event)) :
  mount B now0 storage = Returned w0 ->
  let w := run B tasks w0 in
  let config := tgConfig (app w) in
  localStorage w !! STORAGE_KEY = Some (JSON_stringify B config)
  /\ (forall now e,
       localStorage (step B now e w) !! STORAGE_KEY
       = Some (JSON_stringify B (tgConfig (app (step B now e w)))))
  /\ (JSON_parse B (JSON_stringify B config) = Returned config ->
      truthy (JSON_stringify B config) = true ->
      forall now, exists w1,
        mount B now (localStorage w) = Returned w1 /\ tgConfig (app w1) = config)
  /\ (forall now empty,
       empty !! STORAGE_KEY = None ->
       exists w1,
         mount B now empty = Returned w1
         /\ tgConfig (app w1) = TelegramConfig.mk "" "" false).
Proof.
  intros Hmount w config.
  assert (Hinv : storage_invariant B w).
  { subst w. apply run_invariant.
    - intros now e w. apply step_storage_invariant.
    - destruct (mount_Returned _ _ _ Hmount) as (c & _ & Hc & Hs).
      unfold storage_invariant. rewrite Hs, Hc. apply lookup_insert_eq. }
  split; [exact Hinv | split; [| split]].
  - intros now e. apply step_storage_invariant, Hinv.
  - intros Hparse Htruthy now. apply mount_of_config.
    unfold initial_tgConfig. unfold storage_invariant in Hinv. fold config in Hinv.
    rewrite Hinv, Htruthy. exact Hparse.
  - intros now empty Hnone. apply mount_of_config.
    unfold initial_tgConfig. rewrite Hnone. reflexivity.
Qed.

(** ** The debounce cell *)

(** [checkThreshold] calls [sendTelegramAlert] only when the clock is more
    than 600000 ms past the debounce cell. *)
Lemma checkThreshold_waits (now : Z) (s : AppState) (p : PendingAlert) :
  checkThreshold_call now s = Some p -> now - lastAlertTimeRef s > 600000.
Proof. intros Hcall. apply checkThreshold_call_Some in Hcall. tauto. Qed.

(** A send that fails leaves the debounce cell; one that succeeds stores the
    clock its check read. *)
Lemma checkThreshold_resume_cell (clock : Z) (p : PendingAlert) (ok : bool) (s : AppState) :
  lastAlertTimeRef (checkThreshold_resume B clock p ok s)
  = if ok then alert_now p else lastAlertTimeRef s.
Proof. unfold checkThreshold_resume. destruct ok; reflexivity. Qed.

(** What a task does to the calls of [sendTelegramAlert] and to the debounce
    cell: it settles a suspended call; or it leaves all of it; or its check
    passes, more than 600000 ms past the cell, and the call is suspended or
    fails at its guard. *)
Lemma step_debounce_cases (now : Z) (e : Event) (w : World) :
  let w' := step B now e w in
  (exists i net p,
      e = AlertSettles i net
      /\ alertsInFlight w !! i = Some p
      /\ alertsInFlight w' = delete i (alertsInFlight w)
      /\ alertsSettled w' = (p, sendTelegramAlert (alert_tgConfig p) net) :: alertsSettled w
      /\ lastAlertTimeRef (app w')
         = if sendTelegramAlert (alert_tgConfig p) net then alert_now p
           else lastAlertTimeRef (app w))
  \/ (alertsInFlight w' = alertsInFlight w
      /\ alertsSettled w' = alertsSettled w
      /\ lastAlertTimeRef (app w') = lastAlertTimeRef (app w))
  \/ (exists p,
        alert_now p - lastAlertTimeRef (app w) > 600000
        /\ lastAlertTimeRef (app w') = lastAlertTimeRef (app w)
        /\ (alertsInFlight w' = alertsInFlight w ++ [p]
               /\ alertsSettled w' = alertsSettled w
            \/ alertsInFlight w' = alertsInFlight w
               /\ alertsSettled w' = (p, false) :: alertsSettled w)).
Proof.
  assert (Heffects : forall old c w1,
             alertsInFlight w1 = alertsInFlight w ->
             alertsSettled w1 = alertsSettled w ->
             lastAlertTimeRef (app w1) = lastAlertTimeRef (app w) ->
             let w' := run_effects B now old c w1 in
             (alertsInFlight w' = alertsInFlight w
              /\ alertsSettled w' = alertsSettled w
              /\ lastAlertTimeRef (app w') = lastAlertTimeRef (app w))
             \/ (exists p,
                   alert_now p - lastAlertTimeRef (app w) > 600000
                   /\ lastAlertTimeRef (app w') = lastAlertTimeRef (app w)
                   /\ (alertsInFlight w' = alertsInFlight w ++ [p]
                          /\ alertsSettled w' = alertsSettled w
                       \/ alertsInFlight w' = alertsInFlight w
                          /\ alertsSettled w' = (p, false) :: alertsSettled w))).
  { intros old c w1 Hf Hs Hl.
    destruct (run_effects_check now old c w1)
      as [_ Hs' Hf' _ Hl' | p Hcall _ _ Hs' Hf' _ Hl' | p Hcall _ _ Hs' Hf' _ Hl'];
      cbv zeta; [left; split; [| split]; congruence | right | right].
    all: apply checkThreshold_call_Some in Hcall as (_ & _ & _ & Hgap & Hp);
      assert (Hnow : alert_now p = now) by (rewrite Hp; reflexivity);
      exists p; rewrite Hnow, <- Hl;
      (split; [exact Hgap |]); split; [congruence |].
    - left. split; congruence.
    - right. split; congruence. }
  destruct e; cbv zeta; unfold step;
    try (right; apply Heffects; reflexivity);
    try (right; left; frame; fail).
  - destruct (pricesInFlight w) as [| n]; [right; left; auto |].
    right. apply Heffects; try reflexivity.
    simpl. unfold fetchPrice_resume. destruct (fetchLiveGoldPrice net now); reflexivity.
  - destruct (alertsInFlight w !! i) as [p |] eqn:Hi; [left | right; left; auto].
    exists i, net, p. unfold settle_alert. simpl. rewrite checkThreshold_resume_cell.
    repeat split; auto.
Qed.

(** The discipline of the debounce cell.  A task calls [sendTelegramAlert]
    only when its clock is more than 600000 ms past the cell.  The cell
    changes only when a call settles with [true], and it then holds the clock
    the check of that call read; a call that settles with [false] leaves it. *)
Theorem debounce_cell_discipline (now : Z) (e : Event) (w : World) :
  let w' := step B now e w in
  (forall p,
      alertsAttempted w' = p :: alertsAttempted w ->
      alert_now p = now /\ now - lastAlertTimeRef (app w) > 600000)
  /\ (lastAlertTimeRef (app w') = lastAlertTimeRef (app w)
      \/ exists p,
          alertsSettled w' = (p, true) :: alertsSettled w
          /\ lastAlertTimeRef (app w') = alert_now p)
  /\ (forall p,
        alertsSettled w' = (p, false) :: alertsSettled w ->
        lastAlertTimeRef (app w') = lastAlertTimeRef (app w)).
Proof.
  intros w'. subst w'.
  assert (Hfresh : forall (A : Type) (x : A) (l : list A), x :: l <> l).
  { intros A x l Heq. apply (f_equal length) in Heq. simpl in Heq. lia. }
  split; [| split].
  - intros p Hp.
    destruct (step_alerts now e w) as [[Hsame | (p' & Hp' & _ & _ & _ & _ & _ & Hnow & Hgap & _)] _].
    + rewrite Hsame in Hp. symmetry in Hp. destruct (Hfresh _ _ _ Hp).
    + rewrite Hp' in Hp. injection Hp as ->. auto.
  - destruct (step_debounce_cases now e w)
      as [(i & net & p & _ & _ & _ & Hs & Hl) | [(_ & _ & Hl) | (p & _ & Hl & _)]]; auto.
    destruct (sendTelegramAlert (alert_tgConfig p) net); [right; eauto | left; auto].
  - intros p Hp.
    destruct (step_debounce_cases now e w)
      as [(i & net & p' & _ & _ & _ & Hs & Hl) | [(_ & _ & Hl) | (p' & _ & Hl & _)]]; auto.
    rewrite Hs in Hp. injection Hp as Hpp Hok. rewrite Hok in Hl. exact Hl.
Qed.

Lemma step_debounce_invariant (now : Z) (e : Event) (w : World) :
  (length (alertsInFlight w) <= 1)%nat ->
  debounce_invariant w -> debounce_invariant (step B now e w).
Proof.
  intros Hserial (Hsorted & Hcell & Hflight). unfold debounce_invariant.
  destruct (step_debounce_cases now e w)
    as [(i & net & p & _ & Hi & -> & -> & ->)
       | [(-> & -> & ->) | (p & Hgap & -> & [[-> ->] | [-> ->]])]];
    auto.
  - (* a suspended send settles: it was the only one *)
    assert (Honly : alertsInFlight w = [p] /\ i = 0%nat).
    { destruct (alertsInFlight w) as [| p0 [| p1 rest]]; simpl in *;
        [discriminate | | lia].
      destruct i; simpl in Hi; [split; congruence | discriminate]. }
    destruct Honly as [Honly ->]. rewrite Honly in *. simpl.
    apply Forall_inv in Hflight.
    destruct (sendTelegramAlert (alert_tgConfig p) net); cbn; [| auto].
    repeat split; [| | constructor].
    + constructor; [exact Hsorted |].
      eapply Forall_impl; [exact Hcell |]. unfold apart. simpl. intros s Hs. lia.
    + constructor; [lia |].
      eapply Forall_impl; [exact Hcell |]. simpl. intros s Hs. lia.
  - (* a check passes and its send is suspended *)
    repeat split; auto. apply Forall_app. split; [exact Hflight |].
    constructor; [exact Hgap | constructor].
Qed.

Lemma run_debounce_invariant (tasks : list (Z * Event)) (w : World) :
  serial B tasks w -> debounce_invariant w -> debounce_invariant (run B tasks w).
Proof.
  revert w. induction tasks as [| [now e] tasks IH]; intros w Hserial Hw.
  - exact Hw.
  - rewrite run_cons. apply IH.
    + intros k. exact (Hserial (S k)).
    + apply step_debounce_invariant; [exact (Hserial 0%nat) | exact Hw].
Qed.

Lemma mount_debounce_invariant (now : Z) (storage : gmap string string) (w : World) :
  mount B now storage = Returned w -> debounce_invariant w.
Proof.
  unfold mount. destruct (initial_tgConfig B storage) as [config | msg]; [| discriminate].
  intros [= <-]. unfold debounce_invariant. frame; repeat split; constructor.
Qed.

(** The debounce of serial runs.  In a run in which no check of the
    threshold passes while a send is awaited, every two calls of
    [sendTelegramAlert] that returned [true] were checked more than 600000 ms
    apart. *)
Theorem serial_alerts_are_debounced
    (now0 : Z) (storage : gmap string string) (w0 : World) (tasks : list (Z * Event)) :
  mount B now0 storage = Returned w0 ->
  serial B tasks w0 ->
  StronglySorted apart (successes (alertsSettled (run B tasks w0))).
Proof.
  intros Hmount Hserial.
  apply run_debounce_invariant; [exact Hserial |].
  apply (mount_debounce_invariant _ _ _ Hmount).
Qed.

(** ** The market insight *)

Lemma run_effects_insights (now : Z) (old : AppState) (configSet : bool) (w : World) :
  insightsRequested (run_effects B now old configSet w) = insightsRequested w.
Proof. frame. Qed.

(** Every task but a click on the AI Insights button leaves the record of the
    calls of [getMarketInsight] as it is. *)
Lemma step_insightsRequested (now : Z) (e : Event) (w : World) :
  e <> ClickInsight -> insightsRequested (step B now e w) = insightsRequested w.
Proof.
  intros He. destruct e; try congruence; unfold step;
    rewrite ?run_effects_insights; try reflexivity; frame.
Qed.

(** C6. The market insight is optional and guarded.  Only a click on the AI
    Insights button makes a task call [getMarketInsight], and then with a
    price that is not 0.  When the price is 0, [handleFetchInsight] returns at
    once: the page after the click is the page before it, with no call of the
    service and the insight and its loading flag as they were. *)
Theorem insight_only_on_request (now : Z) (e : Event) (w : World) :
  let w' := step B now e w in
  (insightsRequested w' <> insightsRequested w ->
   e = ClickInsight
   /\ insightsRequested w' = currentPrice (app w) :: insightsRequested w
   /\ js_strict_eq (currentPrice (app w)) (of_Z 0) = false)
  /\ (js_strict_eq (currentPrice (app w)) (of_Z 0) = true ->
      handleFetchInsight_call (app w) = None
      /\ click_insight w = w
      /\ step B now ClickInsight w = w).
Proof.
  intros w'. split.
  - intros Hcalled.
    assert (He : e = ClickInsight).
    { destruct e; try reflexivity; contradict Hcalled;
        apply step_insightsRequested; discriminate. }
    subst e w'. split; [reflexivity |]. revert Hcalled.
    unfold step, click_insight, handleFetchInsight_call.
    destruct (loadingInsight (app w)); simpl; [congruence |].
    destruct (js_strict_eq (currentPrice (app w)) (of_Z 0)); simpl; [congruence |].
    auto.
  - intros Hzero. unfold step, click_insight, handleFetchInsight_call.
    rewrite Hzero, Bool.orb_true_r. auto.
Qed.

(** [getMarketInsight] propagates no exception once the client is built. *)
Lemma getMarketInsight_returns
    (generateContent : string -> Outcome (option string)) (price : number) :
  exists result, getMarketInsight B (Returned generateContent) price = Returned result.
Proof.
  unfold getMarketInsight.
  destruct (generateContent (insight_prompt B price)) as [text | msg]; [| eauto].
  destruct (JSON_parse_insight B (insight_jsonStr B text)); eauto.
Qed.

(** C7. [getMarketInsight] falls back on a failure.  For every price, when
    the call of the model throws, or when [JSON.parse] of its response
    throws, the function returns the insight with sentiment ['Neutral'],
    analysis ['Could not fetch AI analysis at this time.'] and recommendation
    ['Monitor global economic indicators.']. *)
Theorem getMarketInsight_falls_back
    (generateContent : string -> Outcome (option string)) (price : number) :
  (exists msg, generateContent (insight_prompt B price) = Thrown msg)
  \/ (exists text msg,
        generateContent (insight_prompt B price) = Returned text
        /\ JSON_parse_insight B (insight_jsonStr B text) = Thrown msg) ->
  getMarketInsight B (Returned generateContent) price
  = Returned (MarketInsight.mk Neutral
                "Could not fetch AI analysis at this time."
                "Monitor global economic indicators.").
Proof.
  unfold getMarketInsight.
  intros [(msg & ->) | (text & msg & -> & ->)]; reflexivity.
Qed.

(** * More of the services and of the component *)

(** ** The services *)

Lemma truthy_true (s : string) : truthy s = true <-> s <> EmptyString.
Proof. destruct s; simpl; split; congruence. Qed.

(** [sendTelegramAlert] returns [true] exactly when the bot token and the
    chat id are not empty, notifications are enabled, and Telegram answered
    with a response that is ok.  With an incomplete configuration it returns
    [false] whatever the network would do. *)
Theorem sendTelegramAlert_true_iff (config : TelegramConfig.t) (net : TelegramResponse) :
  sendTelegramAlert config net = true
  <-> TelegramConfig.botToken config <> EmptyString
      /\ TelegramConfig.chatId config <> EmptyString
      /\ TelegramConfig.enabled config = true
      /\ net = TelegramResponds true.
Proof.
  unfold sendTelegramAlert, sendTelegramAlert_call, sendTelegramAlert_resume.
  rewrite <- !truthy_true.
  destruct (truthy (TelegramConfig.botToken config)),
    (truthy (TelegramConfig.chatId config)), (TelegramConfig.enabled config);
    simpl; try (split; [discriminate | intros (? & ? & ? & ?); discriminate]).
  destruct net as [| [|]]; split; try discriminate; auto.
  - intros (_ & _ & _ & H). discriminate.
  - intros (_ & _ & _ & H). discriminate.
Qed.

Lemma sendTelegramAlert_call_None (config : TelegramConfig.t) :
  sendTelegramAlert_call config = None
  <-> TelegramConfig.botToken config <> EmptyString
      /\ TelegramConfig.chatId config <> EmptyString
      /\ TelegramConfig.enabled config = true.
Proof.
  unfold sendTelegramAlert_call. rewrite <- !truthy_true.
  destruct (truthy (TelegramConfig.botToken config)),
    (truthy (TelegramConfig.chatId config)), (TelegramConfig.enabled config);
    simpl; split; try discriminate; auto; intros (? & ? & ?); discriminate.
Qed.

Lemma Math_round_whole (x : number) : whole (Math_round x).
Proof. destruct x; simpl; eauto. Qed.

(** [fetchLiveGoldPrice] returns exactly when the response is ok and its body
    has the [xau] object.  What it returns carries the clock it read and the
    source ['Global Market (XAU/IDR)']; the price is a whole number, [NaN] or
    an infinity, and it is [NaN] when [xau] has no [idr]. *)
Theorem fetchLiveGoldPrice_Returned (net : FeedResponse) (now : Z) :
  (forall data,
      fetchLiveGoldPrice net now = Returned data ->
      GoldData.timestamp data = now
      /\ GoldData.source data = "Global Market (XAU/IDR)"
      /\ whole (GoldData.pricePerGram data)
      /\ exists idr,
          net = FeedResponds true (BodyXau idr)
          /\ (idr = None -> GoldData.pricePerGram data = NaN))
  /\ (forall idr, net = FeedResponds true (BodyXau idr) ->
      exists data, fetchLiveGoldPrice net now = Returned data).
Proof.
  split.
  - intros data. destruct net as [msg | [|] [msg | msg | idr]]; simpl; try discriminate.
    intros [= <-]. simpl. repeat split; [apply Math_round_whole |].
    exists idr. split; [reflexivity |]. intros ->. reflexivity.
  - intros idr ->. simpl. eauto.
Qed.

(** ** The price state *)

Lemma fetched_data (net : FeedResponse) (now : Z) (data : GoldData.t) :
  fetchLiveGoldPrice net now = Returned data ->
  GoldData.timestamp data = now
  /\ GoldData.source data = "Global Market (XAU/IDR)"
  /\ whole (GoldData.pricePerGram data).
Proof.
  destruct net as [msg | [|] [msg | msg | idr]]; simpl; try discriminate.
  intros [= <-]. simpl. repeat split. apply Math_round_whole.
Qed.

(** A task leaves the four cells of the price state, or it is a poll that
    succeeded and writes all four from what [fetchLiveGoldPrice] returned. *)
Lemma step_price_state (now : Z) (e : Event) (w : World) :
  let s := app w in
  let s' := app (step B now e w) in
  (currentPrice s' = currentPrice s /\ lastUpdated s' = lastUpdated s
   /\ dataSource s' = dataSource s /\ priceHistory s' = priceHistory s)
  \/ exists net data,
      e = PriceSettles net
      /\ pricesInFlight w <> 0%nat
      /\ fetchLiveGoldPrice net now = Returned data
      /\ currentPrice s' = GoldData.pricePerGram data
      /\ lastUpdated s' = Some (GoldData.timestamp data)
      /\ dataSource s' = GoldData.source data
      /\ priceHistory s' = Array_slice (-30) None (priceHistory s ++ [newPoint B data]).
Proof.
  cbv zeta. destruct e; unfold step;
    try (left;
         match goal with
         | |- context [run_effects B now ?old ?c ?w1] =>
             destruct (run_effects_frame now old c w1) as (-> & -> & -> & _ & -> & _)
         end; repeat split; reflexivity);
    try (left; frame; fail).
  destruct (pricesInFlight w) as [| n] eqn:Hn; [left; auto |].
  destruct (run_effects_frame now (app w) false
              (with_app (fetchPrice_resume B (fetchLiveGoldPrice net now))
                 (with_pricesInFlight n w))) as (-> & -> & -> & _ & -> & _).
  simpl. unfold fetchPrice_resume.
  destruct (fetchLiveGoldPrice net now) as [data | msg] eqn:Hfetch.
  - right. exists net, data. repeat split; auto.
  - left. auto.
Qed.

Lemma mount_price_state (now : Z) (storage : gmap string string) (w : World) :
  mount B now storage = Returned w ->
  currentPrice (app w) = of_Z 0 /\ lastUpdated (app w) = None
  /\ dataSource (app w) = "Initializing..." /\ priceHistory (app w) = [].
Proof.
  unfold mount. destruct (initial_tgConfig B storage) as [config | msg]; [| discriminate].
  intros [= <-]. frame.
Qed.

(** The price state is consistent.  In every state the page reaches, either
    no poll has succeeded yet (the price is 0, there is no update time, the
    source reads ['Initializing...'] and the history is empty), or the last
    point of the history carries the current price and the time of the last
    update, and the source is ['Global Market (XAU/IDR)']. *)
Theorem price_state_is_consistent
    (now0 : Z) (storage : gmap string string) (w0 : World) (tasks : list (Z * Event)) :
  mount B now0 storage = Returned w0 ->
  price_state_consistent B (app (run B tasks w0)).
Proof.
  intros Hmount.
  apply (run_invariant (fun w => price_state_consistent B (app w))).
  - intros now e w Hw. unfold price_state_consistent in *.
    destruct (step_price_state now e w)
      as [(-> & -> & -> & ->) | (net & data & _ & _ & Hfetch & -> & -> & -> & ->)];
      [exact Hw | right].
    destruct (fetched_data _ _ _ Hfetch) as (_ & Hsource & _).
    exists (GoldData.timestamp data). repeat split; [exact Hsource |].
    apply window_last.
  - left. apply (mount_price_state _ _ _ Hmount).
Qed.

(** Every price the page shows is a whole number, [NaN] or an infinity: the
    current price and the price of every point of the history, in every state
    the page reaches. *)
Theorem prices_are_whole
    (now0 : Z) (storage : gmap string string) (w0 : World) (tasks : list (Z * Event)) :
  mount B now0 storage = Returned w0 ->
  let s := app (run B tasks w0) in
  whole (currentPrice s)
  /\ Forall (fun point => whole (PricePoint.price point)) (priceHistory s).
Proof.
  intros Hmount.
  apply (run_invariant
           (fun w => whole (currentPrice (app w))
                     /\ Forall (fun point => whole (PricePoint.price point))
                          (priceHistory (app w)))).
  - intros now e w [Hprice Hhistory].
    destruct (step_price_state now e w)
      as [(-> & _ & _ & ->) | (net & data & _ & _ & Hfetch & -> & _ & _ & ->)];
      [auto |].
    destruct (fetched_data _ _ _ Hfetch) as (_ & _ & Hwhole).
    split; [exact Hwhole |].
    rewrite Array_slice_last_30. apply Forall_drop, Forall_app.
    split; [exact Hhistory |]. constructor; [exact Hwhole | constructor].
  - destruct (mount_price_state _ _ _ Hmount) as (-> & _ & _ & ->).
    split; [exists 0; reflexivity | constructor].
Qed.

(** ** The alerts, once more *)

(** What a task does to the suspended and the settled calls of
    [sendTelegramAlert]: it settles a suspended call; or it leaves them; or
    its check passes and the call is suspended, the configuration passing the
    guard of [sendTelegramAlert]; or the call fails at that guard. *)
Lemma step_alert_cases (now : Z) (e : Event) (w : World) :
  let w' := step B now e w in
  (exists i net p,
      e = AlertSettles i net
      /\ alertsInFlight w !! i = Some p
      /\ alertsInFlight w' = delete i (alertsInFlight w)
      /\ alertsSettled w' = (p, sendTelegramAlert (alert_tgConfig p) net) :: alertsSettled w)
  \/ (alertsInFlight w' = alertsInFlight w /\ alertsSettled w' = alertsSettled w)
  \/ (exists p,
        js_gt (alert_currentPrice p) (of_Z 0) = true
        /\ js_ge (alert_currentPrice p) (alert_threshold p) = true
        /\ sendTelegramAlert_call (alert_tgConfig p) = None
        /\ alertsInFlight w' = alertsInFlight w ++ [p]
        /\ alertsSettled w' = alertsSettled w)
  \/ (exists p,
        alertsInFlight w' = alertsInFlight w
        /\ alertsSettled w' = (p, false) :: alertsSettled w).
Proof.
  assert (Heffects : forall old c w1,
             alertsInFlight w1 = alertsInFlight w ->
             alertsSettled w1 = alertsSettled w ->
             let w' := run_effects B now old c w1 in
             (alertsInFlight w' = alertsInFlight w /\ alertsSettled w' = alertsSettled w)
             \/ (exists p,
                   js_gt (alert_currentPrice p) (of_Z 0) = true
                   /\ js_ge (alert_currentPrice p) (alert_threshold p) = true
                   /\ sendTelegramAlert_call (alert_tgConfig p) = None
                   /\ alertsInFlight w' = alertsInFlight w ++ [p]
                   /\ alertsSettled w' = alertsSettled w)
             \/ (exists p,
                   alertsInFlight w' = alertsInFlight w
                   /\ alertsSettled w' = (p, false) :: alertsSettled w)).
  { intros old c w1 Hf Hs. cbv zeta.
    destruct (run_effects_check now old c w1)
      as [_ Hs' Hf' _ _ | p Hcall Hsend _ Hs' Hf' _ _ | p Hcall _ _ Hs' Hf' _ _].
    - left. split; congruence.
    - right. left. exists p.
      apply checkThreshold_call_Some in Hcall as (_ & Hgt & Hge & _ & Hp).
      rewrite Hp in *. simpl in *. repeat split; auto; congruence.
    - right. right. exists p. split; congruence. }
  destruct e; cbv zeta; unfold step;
    try (right; apply Heffects; reflexivity);
    try (right; left; frame; fail).
  - destruct (pricesInFlight w) as [| n]; [right; left; auto |].
    right. apply Heffects; reflexivity.
  - destruct (alertsInFlight w !! i) as [p |] eqn:Hi; [left | right; left; auto].
    exists i, net, p. repeat split; auto.
Qed.

Lemma mount_alerts (now : Z) (storage : gmap string string) (w : World) :
  mount B now storage = Returned w ->
  alertsInFlight w = [] /\ alertsSettled w = [] /\ logs (app w) = [].
Proof.
  unfold mount. destruct (initial_tgConfig B storage) as [config | msg]; [| discriminate].
  intros [= <-]. frame.
Qed.

(** A success is recorded only for a guarded alert.  In every state the page
    reaches, every call of [sendTelegramAlert] that returned [true] was made
    for a price above 0 and at or above the threshold of its check, with a bot
    token and a chat id that are not empty and notifications enabled, as the
    configuration stood at the check. *)
Theorem successes_were_guarded
    (now0 : Z) (storage : gmap string string) (w0 : World) (tasks : list (Z * Event)) :
  mount B now0 storage = Returned w0 ->
  forall p, In (p, true) (alertsSettled (run B tasks w0)) -> alert_guarded p.
Proof.
  intros Hmount.
  assert (Hinv : Forall alert_guarded (alertsInFlight (run B tasks w0))
                 /\ forall p, In (p, true) (alertsSettled (run B tasks w0)) ->
                              alert_guarded p).
  { apply (run_invariant
             (fun w => Forall alert_guarded (alertsInFlight w)
                       /\ forall p, In (p, true) (alertsSettled w) -> alert_guarded p)).
    - intros now e w [Hflight Hsettled].
      destruct (step_alert_cases now e w)
        as [(i & net & p & _ & Hi & -> & ->)
           | [(-> & ->) | [(p & Hgt & Hge & Hcall & -> & ->) | (p & -> & ->)]]].
      + split; [apply Forall_delete, Hflight |].
        intros p' [[= <- _] | Hin]; [| auto].
        rewrite Forall_lookup in Hflight. exact (Hflight i p Hi).
      + auto.
      + split; [| exact Hsettled]. apply Forall_app. split; [exact Hflight |].
        constructor; [| constructor]. apply sendTelegramAlert_call_None in Hcall.
        unfold alert_guarded. tauto.
      + split; [exact Hflight |]. intros p' [[=] | Hin]; auto.
    - destruct (mount_alerts _ _ _ Hmount) as (-> & -> & _).
      split; [constructor | intros p []]. }
  exact (proj2 Hinv).
Qed.

Lemma alert_log_fields (now : Z) (p : PendingAlert) (ok : bool) :
  (NotificationLog.message (alert_log B now p ok),
   NotificationLog.status (alert_log B now p ok))
  = (alert_message B p, alert_status ok).
Proof. reflexivity. Qed.

Lemma firstn_cons_firstn {A : Type} (n : nat) (x : A) (l : list A) :
  firstn (S n) (x :: firstn (S n) l) = firstn (S n) (x :: l).
Proof.
  simpl. f_equal. rewrite firstn_firstn. f_equal. lia.
Qed.

(** The alert log mirrors the settled sends.  In every state the page
    reaches, the messages and statuses of the log are those of the fifty
    latest calls of [sendTelegramAlert] that settled, latest first: the
    message names the threshold and the price of the call, the status is
    [success] for a call that returned [true] and [failed] otherwise. *)
Theorem logs_mirror_settlements
    (now0 : Z) (storage : gmap string string) (w0 : World) (tasks : list (Z * Event)) :
  mount B now0 storage = Returned w0 ->
  let w := run B tasks w0 in
  map (fun entry => (NotificationLog.message entry, NotificationLog.status entry))
    (logs (app w))
  = firstn 50 (map (fun '(p, ok) => (alert_message B p, alert_status ok))
                 (alertsSettled w)).
Proof.
  intros Hmount.
  apply (run_invariant
           (fun w =>
              map (fun entry => (NotificationLog.message entry,
                                 NotificationLog.status entry)) (logs (app w))
              = firstn 50 (map (fun '(p, ok) => (alert_message B p, alert_status ok))
                             (alertsSettled w)))).
  - intros now e w Hw.
    destruct (step_alerts now e w) as [_ [[-> ->] | (p & net & -> & -> & _)]];
      [exact Hw |].
    rewrite Array_slice_first_50, <- firstn_map. cbn [map].
    rewrite Hw, alert_log_fields. apply (firstn_cons_firstn 49).
  - destruct (mount_alerts _ _ _ Hmount) as (_ & -> & ->). reflexivity.
Qed.

(** A check that finds the page monitoring, the price above 0 and at or above
    the threshold, and the clock more than 600000 ms past the debounce cell,
    calls [sendTelegramAlert]. *)
Lemma alert_effect_passes (now : Z) (w : World) :
  isMonitoring (app w) = true ->
  js_gt (currentPrice (app w)) (of_Z 0) = true ->
  js_ge (currentPrice (app w)) (threshold (app w)) = true ->
  now - lastAlertTimeRef (app w) > 600000 ->
  alertsAttempted (alert_effect B now w)
  = mkPendingAlert (tgConfig (app w)) (currentPrice (app w)) (threshold (app w)) now
    :: alertsAttempted w.
Proof.
  intros Hm Hgt Hge Hgap. unfold alert_effect, checkThreshold_call.
  rewrite Hm, Hgt, Hge. simpl.
  replace (now - lastAlertTimeRef (app w) >? 600000) with true by lia.
  simpl. destruct (sendTelegramAlert_call (tgConfig (app w))); reflexivity.
Qed.

(** Every edit of the settings form checks the threshold again.  While the
    page is monitoring, the price is above 0 and at or above the threshold,
    and the clock is more than 600000 ms past the debounce cell, each change
    of the bot token, of the chat id or of the enabled switch calls
    [sendTelegramAlert], with the configuration as just edited. *)
Theorem config_edit_sends_again (now : Z) (e : Event) (w : World) :
  config_edit e ->
  isMonitoring (app w) = true ->
  js_gt (currentPrice (app w)) (of_Z 0) = true ->
  js_ge (currentPrice (app w)) (threshold (app w)) = true ->
  now - lastAlertTimeRef (app w) > 600000 ->
  let w' := step B now e w in
  alertsAttempted w'
  = mkPendingAlert (tgConfig (app w')) (currentPrice (app w)) (threshold (app w)) now
    :: alertsAttempted w.
Proof.
  intros He Hm Hgt Hge Hgap w'. subst w'.
  destruct e; try contradiction; unfold step;
    match goal with
    | |- context [run_effects B now ?old true ?w1] =>
        destruct (run_effects_frame now old true w1) as (_ & _ & _ & _ & _ & _ & _ & _ & ->);
        unfold run_effects; simpl isMonitoring; rewrite Bool.eqb_reflx,
          !Bool.orb_true_r; simpl negb; cbv iota
    end;
    rewrite alert_effect_passes by assumption; reflexivity.
Qed.

(** [NaN] never alerts: with a current price or a threshold that is [NaN],
    [checkThreshold] does not call [sendTelegramAlert]. *)
Lemma checkThreshold_call_NaN (now : Z) (s : AppState) :
  currentPrice s = NaN \/ threshold s = NaN -> checkThreshold_call now s = None.
Proof.
  unfold checkThreshold_call. intros [-> | ->].
  - rewrite Bool.andb_false_r. reflexivity.
  - replace (js_ge (currentPrice s) NaN) with false; [rewrite Bool.andb_false_r; reflexivity |].
    destruct (currentPrice s); reflexivity.
Qed.

(** A quote without [idr].  When the feed answers ok with an [xau] object that
    has no [idr], the poll does not fail: the current price becomes [NaN], a
    point with the price [NaN] is appended to the history, and no alert is
    sent.  Since [NaN === 0] is false, a click on the AI Insights button then
    calls [getMarketInsight] with [NaN]. *)
Theorem quote_without_idr_gives_NaN (now : Z) (w : World) :
  pricesInFlight w <> 0%nat ->
  let w' := step B now (PriceSettles (FeedResponds true (BodyXau None))) w in
  currentPrice (app w') = NaN
  /\ last (priceHistory (app w'))
     = Some (PricePoint.mk (Date_toLocaleTimeString B now) NaN)
  /\ alertsAttempted w' = alertsAttempted w
  /\ forall later,
       loadingInsight (app w') = false ->
       insightsRequested (step B later ClickInsight w') = NaN :: insightsRequested w'.
Proof.
  intros Hflight w'.
  assert (Hprice : currentPrice (app w') = NaN
                   /\ last (priceHistory (app w'))
                      = Some (PricePoint.mk (Date_toLocaleTimeString B now) NaN)).
  { subst w'. unfold step. destruct (pricesInFlight w) as [| n]; [congruence |].
    match goal with
    | |- context [run_effects B now ?old ?c ?w1] =>
        destruct (run_effects_frame now old c w1) as (-> & _ & _ & _ & -> & _)
    end.
    split; [reflexivity |]. simpl. apply window_last. }
  destruct Hprice as [Hnan Hlast]. repeat split; auto.
  - destruct (step_alerts now (PriceSettles (FeedResponds true (BodyXau None))) w)
      as [[Hsame | (p & _ & _ & Hgt & _)] _]; [exact Hsame |].
    fold w' in Hgt. rewrite Hnan in Hgt. discriminate.
  - intros later Hidle. unfold step, click_insight, handleFetchInsight_call.
    rewrite Hidle, Hnan. reflexivity.
Qed.

(** Stopping does not cancel a poll.  On a page that is not monitoring, a
    poll still in flight that succeeds writes the current price and appends
    its point to the history; it sends no alert and sets no timer, and the
    page stays stopped. *)
Theorem stopped_page_takes_late_poll
    (now : Z) (net : FeedResponse) (data : GoldData.t) (w : World) :
  isMonitoring (app w) = false ->
  pricesInFlight w <> 0%nat ->
  fetchLiveGoldPrice net now = Returned data ->
  let w' := step B now (PriceSettles net) w in
  currentPrice (app w') = GoldData.pricePerGram data
  /\ last (priceHistory (app w')) = Some (newPoint B data)
  /\ isMonitoring (app w') = false
  /\ alertsAttempted w' = alertsAttempted w
  /\ intervals w' = intervals w.
Proof.
  intros Hoff Hflight Hfetch w'.
  assert (Hstate : currentPrice (app w') = GoldData.pricePerGram data
                   /\ last (priceHistory (app w')) = Some (newPoint B data)
                   /\ isMonitoring (app w') = false
                   /\ intervals w' = intervals w).
  { subst w'. unfold step. destruct (pricesInFlight w) as [| n]; [congruence |].
    rewrite Hfetch.
    match goal with
    | |- context [run_effects B now ?old ?c ?w1] =>
        destruct (run_effects_frame now old c w1) as (-> & _ & _ & _ & -> & -> & _);
        destruct (run_effects_timers now old c w1) as (-> & _)
    end.
    simpl. rewrite Bool.eqb_reflx. simpl. repeat split; auto. apply window_last. }
  destruct Hstate as (Hprice & Hlast & Hstill & Htimers). repeat split; auto.
  destruct (step_alerts now (PriceSettles net) w)
    as [[Hsame | (p & _ & Hm & _)] _]; [exact Hsame |].
  fold w' in Hm. congruence.
Qed.

(** ** The storage, the insight and the spinner *)

Lemma step_localStorage (now : Z) (e : Event) (w : World) (key : string) :
  key <> STORAGE_KEY ->
  localStorage (step B now e w) !! key = localStorage w !! key.
Proof.
  intros Hkey. destruct e; unfold step;
    try (rewrite run_effects_storage; simpl;
         rewrite ?lookup_insert_ne by congruence; reflexivity);
    try (frame; fail).
Qed.

(** The page writes one key.  Whatever the page does, every entry of
    [localStorage] under a key other than ['gold_tg_config'] is as it was
    when the page was loaded. *)
Theorem storage_other_keys_untouched
    (now0 : Z) (storage : gmap string string) (w0 : World) (tasks : list (Z * Event))
    (key : string) :
  mount B now0 storage = Returned w0 ->
  key <> STORAGE_KEY ->
  localStorage (run B tasks w0) !! key = storage !! key.
Proof.
  intros Hmount Hkey.
  apply (run_invariant (fun w => localStorage w !! key = storage !! key)).
  - intros now e w Hw. rewrite step_localStorage; assumption.
  - destruct (mount_Returned _ _ _ Hmount) as (config & _ & _ & ->).
    apply lookup_insert_ne. congruence.
Qed.

Lemma run_effects_insightsInFlight (now : Z) (old : AppState) (configSet : bool) (w : World) :
  insightsInFlight (run_effects B now old configSet w) = insightsInFlight w.
Proof. frame. Qed.

Lemma step_insight_invariant (now : Z) (e : Event) (w : World) :
  insight_invariant w -> insight_invariant (step B now e w).
Proof.
  unfold insight_invariant. intros [Hone Hflag].
  destruct e; unfold step;
    try (match goal with
         | |- context [run_effects B now ?old ?c ?w1] =>
             destruct (run_effects_frame now old c w1) as (_ & _ & _ & _ & _ & _ & _ & -> & _);
             rewrite (run_effects_insightsInFlight now old c w1)
         end; simpl; auto; fail).
  - (* a tab *) simpl. auto.
  - (* the AI Insights button *)
    destruct (loadingInsight (app w)) eqn:Hloading; simpl; [auto |].
    destruct (js_strict_eq (currentPrice (app w)) (of_Z 0)) eqn:Hzero; simpl;
      [split; [exact Hone | intros Hpending; rewrite Hloading; auto] |].
    unfold click_insight, handleFetchInsight_call. rewrite Hzero. simpl.
    destruct (insightsInFlight w) as [| price rest]; simpl; [split; [lia | auto] |].
    assert (Hup : false = true) by (apply Hflag; discriminate). discriminate.
  - (* a timer *) destruct (existsb _ _); simpl; auto.
  - (* a poll settles *)
    destruct (pricesInFlight w) as [| n]; [auto |].
    match goal with
    | |- context [run_effects B now ?old ?c ?w1] =>
        destruct (run_effects_frame now old c w1) as (_ & _ & _ & _ & _ & _ & _ & -> & _);
        rewrite (run_effects_insightsInFlight now old c w1)
    end.
    simpl. unfold fetchPrice_resume. destruct (fetchLiveGoldPrice net now); simpl; auto.
  - (* an alert settles *)
    destruct (alertsInFlight w !! i); [| auto].
    unfold settle_alert, checkThreshold_resume. simpl.
    destruct (sendTelegramAlert _ net); simpl; auto.
  - (* an insight settles: it was the only one *)
    destruct (insightsInFlight w !! i) as [price |] eqn:Hi; [| auto].
    destruct (insightsInFlight w) as [| price0 [| price1 rest]]; simpl in *;
      [discriminate | | lia].
    destruct i; simpl in Hi; [| discriminate].
    simpl. split; [lia | congruence].
Qed.

Lemma mount_insight_invariant (now : Z) (storage : gmap string string) (w : World) :
  mount B now storage = Returned w -> insight_invariant w.
Proof.
  unfold mount. destruct (initial_tgConfig B storage) as [config | msg]; [| discriminate].
  intros [= <-]. unfold insight_invariant. frame.
Qed.

(** Insight requests do not overlap.  In every state the page reaches at
    most one call of [getMarketInsight] is awaited, the loading flag is up
    while one is, and a click on the AI Insights button then does nothing. *)
Theorem insight_requests_do_not_overlap
    (now0 : Z) (storage : gmap string string) (w0 : World) (tasks : list (Z * Event)) :
  mount B now0 storage = Returned w0 ->
  let w := run B tasks w0 in
  (length (insightsInFlight w) <= 1)%nat
  /\ (insightsInFlight w <> [] ->
      loadingInsight (app w) = true
      /\ forall now, step B now ClickInsight w = w).
Proof.
  intros Hmount w.
  assert (Hinv : insight_invariant w).
  { subst w. apply run_invariant.
    - intros now e w. apply step_insight_invariant.
    - apply (mount_insight_invariant _ _ _ Hmount). }
  destruct Hinv as [Hone Hflag]. split; [exact Hone |].
  intros Hpending. specialize (Hflag Hpending). split; [exact Hflag |].
  intros now. unfold step. rewrite Hflag. reflexivity.
Qed.

Lemma step_spinner (now : Z) (e : Event) (w : World) :
  (loadingPrice (app w) = true -> pricesInFlight w <> 0%nat) ->
  loadingPrice (app (step B now e w)) = true -> pricesInFlight (step B now e w) <> 0%nat.
Proof.
  intros Hw. destruct e; unfold step;
    try (match goal with
         | |- context [run_effects B now ?old ?c ?w1] =>
             destruct (run_effects_timers now old c w1) as (_ & _ & _ & -> & ->)
         end; simpl; rewrite ?Bool.eqb_reflx; simpl; auto; fail);
    try (frame; fail).
  - (* a poll settles *)
    destruct (pricesInFlight w) as [| n] eqn:Hn; [rewrite Hn; exact Hw |].
    destruct (run_effects_timers now (app w) false
                (with_app (fetchPrice_resume B (fetchLiveGoldPrice net now))
                   (with_pricesInFlight n w))) as (_ & _ & _ & -> & ->).
    simpl. unfold fetchPrice_resume.
    destruct (fetchLiveGoldPrice net now); simpl; rewrite Bool.eqb_reflx; simpl;
      discriminate.
Qed.

(** The spinner means a poll is on its way.  In every state the page
    reaches, [loadingPrice] is up only while a call of [fetchPrice] is
    awaited. *)
Theorem spinner_means_poll_in_flight
    (now0 : Z) (storage : gmap string string) (w0 : World) (tasks : list (Z * Event)) :
  mount B now0 storage = Returned w0 ->
  loadingPrice (app (run B tasks w0)) = true ->
  pricesInFlight (run B tasks w0) <> 0%nat.
Proof.
  intros Hmount.
  apply (run_invariant
           (fun w => loadingPrice (app w) = true -> pricesInFlight w <> 0%nat)).
  - intros now e w. apply step_spinner.
  - revert Hmount. unfold mount.
    destruct (initial_tgConfig B storage) as [config | msg]; [| discriminate].
    intros [= <-]. frame; discriminate.
Qed.

Lemma step_insight_stuck (now : Z) (e : Event) (w : World) :
  loadingInsight (app w) = true ->
  insightsInFlight w = [] ->
  let w' := step B now e w in
  loadingInsight (app w') = true
  /\ insightsInFlight w' = []
  /\ insightsRequested w' = insightsRequested w
  /\ insight (app w') = insight (app w).
Proof.
  intros Hup Hnone. cbv zeta. destruct e; unfold step;
    try (match goal with
         | |- context [run_effects B now ?old ?c ?w1] =>
             destruct (run_effects_frame now old c w1)
               as (_ & _ & _ & _ & _ & _ & -> & -> & _);
             rewrite (run_effects_insightsInFlight now old c w1),
               (run_effects_insights now old c w1)
         end; simpl; auto; fail).
  - simpl. auto.
  - rewrite Hup. simpl. auto.
  - destruct (existsb _ _); simpl; auto.
  - destruct (pricesInFlight w) as [| n]; [auto |].
    match goal with
    | |- context [run_effects B now ?old ?c ?w1] =>
        destruct (run_effects_frame now old c w1)
          as (_ & _ & _ & _ & _ & _ & -> & -> & _);
        rewrite (run_effects_insightsInFlight now old c w1),
          (run_effects_insights now old c w1)
    end.
    simpl. unfold fetchPrice_resume. destruct (fetchLiveGoldPrice net now); simpl; auto.
  - destruct (alertsInFlight w !! i); [| auto].
    unfold settle_alert, checkThreshold_resume. simpl.
    destruct (sendTelegramAlert _ net); simpl; auto.
  - rewrite Hnone. rewrite lookup_nil. auto.
Qed.

(** A rejected insight request blocks the button for good.  When building
    the client throws, [getMarketInsight] rejects and [handleFetchInsight]
    with it, before it lowers the loading flag: the flag stays up, and from
    then on no task calls [getMarketInsight] again or changes the insight. *)
Theorem rejected_insight_blocks_button
    (now0 : Z) (storage : gmap string string) (w0 : World) (tasks later : list (Z * Event))
    (now : Z) (msg : string) :
  mount B now0 storage = Returned w0 ->
  let w := run B tasks w0 in
  insightsInFlight w <> [] ->
  let stuck := step B now (InsightSettles 0%nat (Thrown msg)) w in
  let w' := run B later stuck in
  loadingInsight (app w') = true
  /\ insightsRequested w' = insightsRequested w
  /\ insight (app w') = insight (app w).
Proof.
  intros Hmount w Hpending stuck w'.
  assert (Hinv : insight_invariant w).
  { subst w. apply run_invariant.
    - intros t e w. apply step_insight_invariant.
    - apply (mount_insight_invariant _ _ _ Hmount). }
  destruct Hinv as [Hone Hflag]. specialize (Hflag Hpending).
  assert (Hstuck : loadingInsight (app stuck) = true
                   /\ insightsInFlight stuck = []
                   /\ insightsRequested stuck = insightsRequested w
                   /\ insight (app stuck) = insight (app w)).
  { subst stuck. unfold step.
    destruct (insightsInFlight w) as [| price [| price1 rest]]; simpl in *;
      [congruence | | lia].
    auto. }
  destruct Hstuck as (Hup & Hnone & Hreq & Hins).
  rewrite <- Hreq, <- Hins. subst w'. clear Hreq Hins.
  revert Hup Hnone. generalize stuck. clear.
  induction later as [| [t e] later IH]; intros w Hup Hnone; [auto |].
  rewrite run_cons.
  destruct (step_insight_stuck t e w Hup Hnone) as (Hup' & Hnone' & <- & <-).
  apply IH; assumption.
Qed.

(** A stored value that does not parse stops the page.  The initializer of
    [tgConfig] calls [JSON.parse] outside any [try]: when the value stored
    under ['gold_tg_config'] is not empty and [JSON.parse] throws on it, the
    page does not come up.  A stored empty string is falsy and gives the
    default configuration. *)
Theorem unparsable_storage_stops_page
    (now : Z) (storage : gmap string string) (saved : string) :
  storage !! STORAGE_KEY = Some saved ->
  (forall msg, saved <> EmptyString -> JSON_parse B saved = Thrown msg ->
               mount B now storage = Thrown msg)
  /\ (saved = EmptyString ->
      exists w, mount B now storage = Returned w
                /\ tgConfig (app w) = TelegramConfig.mk "" "" false).
Proof.
  intros Hsaved. split.
  - intros msg Hfull Hparse. unfold mount, initial_tgConfig.
    rewrite Hsaved. apply truthy_true in Hfull. rewrite Hfull, Hparse. reflexivity.
  - intros ->. apply mount_of_config. unfold initial_tgConfig. rewrite Hsaved.
    reflexivity.
Qed.

End Page.

(** ** The sample browser *)

Lemma sample_after_prefix (p s : string) : Sample.after p (p +:+ s) = Some s.
Proof.
  induction p as [| a p IH]; simpl; [destruct s; reflexivity |].
  rewrite Ascii.eqb_refl. exact IH.
Qed.

Lemma sample_read_escaped (s rest : string) :
  Sample.read_quoted (Sample.escape s +:+ String Sample.quote rest) = Some (s, rest).
Proof.
  induction s as [| c s IH]; simpl.
  - reflexivity.
  - destruct (Ascii.eqb c Sample.quote) eqn:Hq; simpl.
    + rewrite IH. reflexivity.
    + destruct (Ascii.eqb c Sample.backslash) eqn:Hb; simpl.
      * rewrite IH. reflexivity.
      * rewrite Hq, Hb, IH. reflexivity.
Qed.

(** The codec of the sample browser reads back every configuration it writes,
    and writes no empty string. *)
Lemma sample_json_round_trip (c : TelegramConfig.t) :
  Sample.parse (Sample.stringify c) = Returned c
  /\ truthy (Sample.stringify c) = true.
Proof.
  destruct c as [token chat on]. split; [| reflexivity].
  unfold Sample.parse, Sample.stringify. simpl TelegramConfig.botToken.
  simpl TelegramConfig.chatId. simpl TelegramConfig.enabled.
  rewrite sample_after_prefix.
  change (Sample.q +:+ ?x) with (String Sample.quote x).
  rewrite sample_read_escaped, sample_after_prefix.
  change (Sample.q +:+ ?x) with (String Sample.quote x).
  rewrite sample_read_escaped, sample_after_prefix.
  destruct on; reflexivity.
Qed.

(** ** The claims on the sample page *)

Lemma sample_fresh_mounts : mount Sample.browser Sample.t0 ∅ = Returned Sample.fresh.
Proof. vm_compute. reflexivity. Qed.

(** C1 on a run of thirty-one polls and a thirty-second on its way: the
    buffer is full, and the new point pushes the oldest out. *)
Lemma priceHistory_sliding_window_witness :
  let w := run Sample.browser
             (Sample.polls ++ [(Sample.t0 + 1865000, IntervalFires 1%nat)])
             Sample.fresh in
  length (priceHistory (app w)) = 30%nat
  /\ priceHistory (app (step Sample.browser (Sample.t0 + 1865400)
                          (PriceSettles Sample.feed) w))
     = tail (priceHistory (app w)) ++ [PricePoint.mk "1730001865400" (of_Z 3215075)].
Proof.
  intros w.
  destruct (priceHistory_sliding_window Sample.browser Sample.t0 ∅ Sample.fresh
              (Sample.polls ++ [(Sample.t0 + 1865000, IntervalFires 1%nat)])
              sample_fresh_mounts)
    as [_ Hpush].
  fold w in Hpush.
  assert (Hfull : length (priceHistory (app w)) = 30%nat) by (vm_compute; reflexivity).
  split; [exact Hfull |].
  destruct (Hpush (Sample.t0 + 1865400) Sample.feed
              (GoldData.mk (of_Z 3215075) 1730001865400 "Global Market (XAU/IDR)"))
    as (_ & _ & Hslide).
  - vm_compute. reflexivity.
  - vm_compute. discriminate.
  - exact (Hslide Hfull).
Defined.

(** C8 on the sample page: the feed answers the first poll with a response
    that is not ok. *)
Lemma failed_poll_is_atomic_witness :
  let w := step Sample.browser (Sample.t0 + 5000) ClickMonitoring Sample.fresh in
  let w' := step Sample.browser (Sample.t0 + 5400)
              (PriceSettles (FeedResponds false (BodyNotJson ""))) w in
  loadingPrice (app w) = true
  /\ app w' = setLoadingPrice false (app w)
  /\ priceHistory (app w') = priceHistory (app w).
Proof.
  intros w w'.
  destruct (failed_poll_is_atomic Sample.browser (Sample.t0 + 5400)
              (FeedResponds false (BodyNotJson ""))
              "Failed to fetch from primary source" w eq_refl)
    as (_ & _ & _ & Hhistory & Hstate & _).
  split; [reflexivity |]. split; [| exact Hhistory].
  apply Hstate. vm_compute. discriminate.
Defined.

(** C3 on the sample run: the price of the first poll is above the threshold
    and the alert is on its way; when Telegram accepts it, the call settles
    with [true]. *)
Lemma alerts_are_threshold_based_witness :
  let w := run Sample.browser (firstn 5 Sample.two_alerts) Sample.fresh in
  let w' := step Sample.browser (Sample.t0 + 5700)
              (AlertSettles 0%nat (TelegramResponds true)) w in
  let p := mkPendingAlert (TelegramConfig.mk "123:abc" "42" true)
             (of_Z 3215075) (of_Z 2900000) 1730000005400 in
  alertsInFlight w !! 0%nat = Some p
  /\ alertsSettled w' = (p, true) :: alertsSettled w.
Proof.
  intros w w' p.
  assert (Hflight : alertsInFlight w !! 0%nat = Some p) by (vm_compute; reflexivity).
  split; [exact Hflight |].
  destruct (alerts_are_threshold_based Sample.browser (Sample.t0 + 5700)
              (AlertSettles 0%nat (TelegramResponds true)) w)
    as (_ & _ & Hsettled).
  exact (Hsettled 0%nat (TelegramResponds true) p eq_refl Hflight).
Defined.

(** C4 on the sample page: the Start button sets one timer and polls at once,
    the Stop button clears the timer. *)
Lemma single_polling_timer_witness :
  let w := step Sample.browser (Sample.t0 + 5000) ClickMonitoring Sample.fresh in
  (pricesInFlight w = 1%nat
   /\ exists h, intervals w = [mkInterval h CallFetchPrice 60000])
  /\ intervals (step Sample.browser (Sample.t0 + 7000) ClickMonitoring w) = [].
Proof.
  intros w. split.
  - destruct (single_polling_timer Sample.browser Sample.t0 ∅ Sample.fresh []
                sample_fresh_mounts) as (_ & Hstart & _).
    destruct (Hstart (Sample.t0 + 5000) eq_refl) as (_ & Hflight & _ & Htimer).
    split; [exact Hflight | exact Htimer].
  - destruct (single_polling_timer Sample.browser Sample.t0 ∅ Sample.fresh
                [(Sample.t0 + 5000, ClickMonitoring)] sample_fresh_mounts)
      as (_ & _ & Hstop & _).
    destruct (Hstop (Sample.t0 + 7000) eq_refl) as (_ & Hnone). exact Hnone.
Defined.

(** C5 on the sample run: the page is loaded again over the storage the run
    left, and starts with the configuration the user had entered. *)
Lemma tgConfig_round_trips_witness :
  let w := run Sample.browser Sample.two_alerts Sample.fresh in
  tgConfig (app w) = TelegramConfig.mk "123:abc" "42" true
  /\ exists w1,
      mount Sample.browser (Sample.t0 + 86400000) (localStorage w) = Returned w1
      /\ tgConfig (app w1) = TelegramConfig.mk "123:abc" "42" true.
Proof.
  intros w. split; [reflexivity |].
  destruct (tgConfig_round_trips Sample.browser Sample.t0 ∅ Sample.fresh Sample.two_alerts
              sample_fresh_mounts) as (_ & _ & Hload & _).
  apply (Hload (proj1 (sample_json_round_trip _)) (proj2 (sample_json_round_trip _))
           (Sample.t0 + 86400000)).
Defined.

(** C6 on the sample page: before the first price the current price is 0, and
    a call of the handler changes nothing. *)
Lemma insight_only_on_request_witness :
  currentPrice (app Sample.fresh) = of_Z 0
  /\ click_insight Sample.fresh = Sample.fresh.
Proof.
  split; [reflexivity |].
  destruct (insight_only_on_request Sample.browser (Sample.t0 + 1500) ClickInsight
              Sample.fresh)
    as (_ & Hzero).
  destruct (Hzero eq_refl) as (_ & Hsame & _). exact Hsame.
Defined.

(** C7 on the sample browser: the service is down. *)
Lemma getMarketInsight_falls_back_witness :
  getMarketInsight Sample.browser (Returned (fun _ => Thrown "503")) (of_Z 3215075)
  = Returned fallback_insight.
Proof.
  apply (getMarketInsight_falls_back Sample.browser (fun _ => Thrown "503")).
  left. exists "503". reflexivity.
Defined.

(** C2, on the sample run.  The first price arrives 5400 ms after the page
    was loaded, and the first alert is sent.  The user edits the threshold
    100 ms later, before Telegram has answered: the debounce cell still holds
    0, the check passes again and a second alert is sent.  Telegram accepts
    both: two alerts went out 100 ms apart. *)
Theorem debounce_overlapping_checks :
  let w := run Sample.browser Sample.two_alerts Sample.fresh in
  let config := TelegramConfig.mk "123:abc" "42" true in
  let first := mkPendingAlert config (of_Z 3215075) (of_Z 2900000) 1730000005400 in
  let second := mkPendingAlert config (of_Z 3215075) (of_Z 3000000) 1730000005500 in
  alertsSettled w = [(second, true); (first, true)]
  /\ alert_now second - alert_now first = 100
  /\ map NotificationLog.status (logs (app w)) = [success; success]
  /\ lastAlertTimeRef (app w) = 1730000005500.
Proof. vm_compute. repeat split; reflexivity. Qed.

(** The debounce of serial runs, on the sample page: the second alert is
    checked 694600 ms after the first. *)
Lemma serial_alerts_are_debounced_witness :
  let config := TelegramConfig.mk "123:abc" "42" true in
  let first := mkPendingAlert config (of_Z 3215075) (of_Z 2900000) 1730000005400 in
  let second := mkPendingAlert config (of_Z 3215075) (of_Z 3000000) 1730000700000 in
  successes (alertsSettled (run Sample.browser Sample.two_alerts_serial Sample.fresh))
  = [second; first]
  /\ apart second first.
Proof.
  intros config first second.
  assert (Hsuccesses :
            successes (alertsSettled
                         (run Sample.browser Sample.two_alerts_serial Sample.fresh))
            = [second; first]) by (vm_compute; reflexivity).
  split; [exact Hsuccesses |].
  assert (Hserial : serial Sample.browser Sample.two_alerts_serial Sample.fresh).
  { intros k. do 8 (destruct k as [| k]; [vm_compute; lia |]).
    destruct k; vm_compute; lia. }
  pose proof (serial_alerts_are_debounced Sample.browser Sample.t0 ∅ Sample.fresh
                Sample.two_alerts_serial sample_fresh_mounts Hserial) as Hsorted.
  rewrite Hsuccesses in Hsorted.
  apply StronglySorted_inv in Hsorted as [_ Hsecond].
  apply Forall_inv in Hsecond. exact Hsecond.
Defined.

(** The bound of the alert log, on the sample run. *)
Lemma logs_bounded_witness :
  (length (logs (app (run Sample.browser Sample.two_alerts Sample.fresh))) <= 50)%nat.
Proof.
  apply (logs_bounded Sample.browser Sample.t0 ∅ Sample.fresh Sample.two_alerts
           sample_fresh_mounts).
Defined.

(** ** More of the code, on the sample page *)

(** The price state after thirty-one polls. *)
Lemma price_state_is_consistent_witness :
  price_state_consistent Sample.browser
    (app (run Sample.browser Sample.polls Sample.fresh)).
Proof.
  apply (price_state_is_consistent Sample.browser Sample.t0 ∅ Sample.fresh Sample.polls
           sample_fresh_mounts).
Defined.

Lemma prices_are_whole_witness :
  whole (currentPrice (app (run Sample.browser Sample.polls Sample.fresh))).
Proof.
  apply (prices_are_whole Sample.browser Sample.t0 ∅ Sample.fresh Sample.polls
           sample_fresh_mounts).
Defined.

(** The first alert of the sample run was guarded. *)
Lemma successes_were_guarded_witness :
  alert_guarded
    (mkPendingAlert (TelegramConfig.mk "123:abc" "42" true)
       (of_Z 3215075) (of_Z 2900000) 1730000005400).
Proof.
  apply (successes_were_guarded Sample.browser Sample.t0 ∅ Sample.fresh
           Sample.two_alerts sample_fresh_mounts).
  vm_compute. right. left. reflexivity.
Defined.

Lemma logs_mirror_settlements_witness :
  map (fun entry => (NotificationLog.message entry, NotificationLog.status entry))
    (logs (app (run Sample.browser Sample.two_alerts Sample.fresh)))
  = [ ("Price threshold IDR 3000000 triggered at IDR 3215075", success);
      ("Price threshold IDR 2900000 triggered at IDR 3215075", success) ].
Proof.
  rewrite (logs_mirror_settlements Sample.browser Sample.t0 ∅ Sample.fresh
             Sample.two_alerts sample_fresh_mounts).
  vm_compute. reflexivity.
Defined.

(** On the sample page with the first alert refused by Telegram, the user
    retypes the chat id a second later: the alert is sent again. *)
Lemma config_edit_sends_again_witness :
  let w := run Sample.browser
             (firstn 5 Sample.two_alerts
              ++ [(Sample.t0 + 5700, AlertSettles 0%nat (TelegramResponds false))])
             Sample.fresh in
  let w' := step Sample.browser (Sample.t0 + 6700) (ChangeChatId "43") w in
  alertsAttempted w'
  = mkPendingAlert (TelegramConfig.mk "123:abc" "43" true)
      (of_Z 3215075) (of_Z 2900000) 1730000006700
    :: alertsAttempted w.
Proof.
  intros w w'.
  assert (Hm : isMonitoring (app w) = true) by (vm_compute; reflexivity).
  assert (Hgt : js_gt (currentPrice (app w)) (of_Z 0) = true) by (vm_compute; reflexivity).
  assert (Hge : js_ge (currentPrice (app w)) (threshold (app w)) = true)
    by (vm_compute; reflexivity).
  assert (Hgap : Sample.t0 + 6700 - lastAlertTimeRef (app w) > 600000)
    by (vm_compute; reflexivity).
  etransitivity;
    [exact (config_edit_sends_again Sample.browser (Sample.t0 + 6700) (ChangeChatId "43")
              w I Hm Hgt Hge Hgap)
    | vm_compute; reflexivity].
Defined.

Lemma quote_without_idr_gives_NaN_witness :
  let w := step Sample.browser (Sample.t0 + 5000) ClickMonitoring Sample.fresh in
  currentPrice
    (app (step Sample.browser (Sample.t0 + 5400)
            (PriceSettles (FeedResponds true (BodyXau None))) w))
  = NaN.
Proof.
  intros w.
  destruct (quote_without_idr_gives_NaN Sample.browser (Sample.t0 + 5400) w)
    as (Hnan & _).
  - vm_compute. discriminate.
  - exact Hnan.
Defined.

(** The user starts and stops monitoring before the first poll is answered. *)
Lemma stopped_page_takes_late_poll_witness :
  let w := run Sample.browser
             [(Sample.t0 + 5000, ClickMonitoring); (Sample.t0 + 5100, ClickMonitoring)]
             Sample.fresh in
  let w' := step Sample.browser (Sample.t0 + 5400) (PriceSettles Sample.feed) w in
  isMonitoring (app w) = false
  /\ currentPrice (app w') = of_Z 3215075
  /\ intervals w' = [].
Proof.
  intros w w'.
  destruct (stopped_page_takes_late_poll Sample.browser (Sample.t0 + 5400) Sample.feed
              (GoldData.mk (of_Z 3215075) 1730000005400 "Global Market (XAU/IDR)") w)
    as (Hprice & _ & _ & _ & Htimers).
  - vm_compute. reflexivity.
  - vm_compute. discriminate.
  - vm_compute. reflexivity.
  - split; [vm_compute; reflexivity |]. split; [exact Hprice |].
    etransitivity; [exact Htimers | vm_compute; reflexivity].
Defined.

Lemma storage_other_keys_untouched_witness :
  match mount Sample.browser Sample.t0 Sample.shared_storage with
  | Returned w0 =>
      localStorage (run Sample.browser Sample.two_alerts w0) !! "theme" = Some "dark"
  | Thrown _ => False
  end.
Proof.
  destruct (mount Sample.browser Sample.t0 Sample.shared_storage) as [w0 | msg] eqn:Hmount.
  - rewrite (storage_other_keys_untouched Sample.browser Sample.t0 Sample.shared_storage
               w0 Sample.two_alerts "theme" Hmount);
      [vm_compute; reflexivity | discriminate].
  - vm_compute in Hmount. discriminate.
Defined.

Lemma insight_requests_do_not_overlap_witness :
  let w := run Sample.browser Sample.insight_asked Sample.fresh in
  insightsInFlight w = [of_Z 3215075]
  /\ step Sample.browser (Sample.t0 + 8100) ClickInsight w = w.
Proof.
  intros w. split; [vm_compute; reflexivity |].
  destruct (insight_requests_do_not_overlap Sample.browser Sample.t0 ∅ Sample.fresh
              Sample.insight_asked sample_fresh_mounts) as (_ & Hpending).
  destruct Hpending as (_ & Hclick);
    [vm_compute; discriminate | exact (Hclick (Sample.t0 + 8100))].
Defined.

Lemma spinner_means_poll_in_flight_witness :
  pricesInFlight (run Sample.browser [(Sample.t0 + 5000, ClickMonitoring)] Sample.fresh)
  <> 0%nat.
Proof.
  apply (spinner_means_poll_in_flight Sample.browser Sample.t0 ∅ Sample.fresh
           [(Sample.t0 + 5000, ClickMonitoring)] sample_fresh_mounts).
  vm_compute. reflexivity.
Defined.

(** The client cannot be built; the user clicks the button again in vain. *)
Lemma rejected_insight_blocks_button_witness :
  let w := run Sample.browser Sample.insight_asked Sample.fresh in
  let w' := run Sample.browser [(Sample.t0 + 9000, ClickInsight)]
              (step Sample.browser (Sample.t0 + 8500)
                 (InsightSettles 0%nat (Thrown "An API Key must be set")) w) in
  loadingInsight (app w') = true
  /\ insightsRequested w' = [of_Z 3215075].
Proof.
  intros w w'.
  destruct (rejected_insight_blocks_button Sample.browser Sample.t0 ∅ Sample.fresh
              Sample.insight_asked [(Sample.t0 + 9000, ClickInsight)]
              (Sample.t0 + 8500) "An API Key must be set" sample_fresh_mounts)
    as (Hup & Hreq & _).
  - vm_compute. discriminate.
  - split; [exact Hup | etransitivity; [exact Hreq | vm_compute; reflexivity]].
Defined.

Lemma unparsable_storage_stops_page_witness :
  mount Sample.browser Sample.t0 Sample.broken_storage = Thrown "SyntaxError".
Proof.
  destruct (unparsable_storage_stops_page Sample.browser Sample.t0 Sample.broken_storage
              "oops") as (Hstop & _).
  - vm_compute. reflexivity.
  - apply Hstop; [discriminate | vm_compute; reflexivity].
Defined.
